(** * Performance metrics of the generation pipeline

    A shallow embedding of [src/cpp/src/perf_metrics.cpp]: the mean / standard
    deviation reduction [calc_mean_and_std], the member functions
    [PerfMetrics::evaluate_statistics], [PerfMetrics::operator+] and
    [PerfMetrics::operator+=], and the properties of them that the
    specification states.

    Numbers are modelled as the program has them: [float] is IEEE 754
    binary32 with round-to-nearest-even (the parameterised operations of
    [SpecFloat] at precision 24 and maximal exponent 128), [size_t] is an
    integer modulo 2^64, a time point is a signed 64-bit count of
    nanoseconds. *)

From Stdlib Require Import ZArith List Lia Bool String.
From Stdlib Require Import Floats.SpecFloat.
From stdpp Require Import base option list gmap.

Local Open Scope Z_scope.

(** ** binary32 arithmetic *)

Module Float32.

Definition prec : Z := 24.
Definition emax : Z := 128.

Definition float32 : Type := spec_float.

Definition add : float32 -> float32 -> float32 := SFadd prec emax.
Definition sub : float32 -> float32 -> float32 := SFsub prec emax.
Definition mul : float32 -> float32 -> float32 := SFmul prec emax.
Definition div : float32 -> float32 -> float32 := SFdiv prec emax.
Definition sqrt : float32 -> float32 := SFsqrt prec emax.

(** [==], [<=] of the language on floats: false as soon as one side is a
    NaN, and [+0 == -0]. *)
Definition eqb : float32 -> float32 -> bool := SFeqb.
Definition leb : float32 -> float32 -> bool := SFleb.

(** Conversion of an integer to [float] (round to nearest, ties to even). *)
Definition of_Z (z : Z) : float32 := binary_normalize prec emax z 0 false.

(** The literal [0.0f]. *)
Definition zero : float32 := S754_zero false.

(** The literal [1000.0f]. *)
Definition thousand : float32 := of_Z 1000.

End Float32.

Import Float32.

(** ** Machine integers *)

(** [size_t]: an unsigned 64-bit integer; arithmetic wraps around. *)
Definition size_t : Type := Z.
Definition SIZE_MODULUS : Z := 2 ^ 64.
Definition wrap_size_t (z : Z) : size_t := z mod SIZE_MODULUS.
Definition size_t_add (a b : size_t) : size_t := wrap_size_t (a + b).
Definition in_size_t (z : Z) : Prop := 0 <= z < SIZE_MODULUS.

(** Conversion of a [size_t] operand to [float], as the usual arithmetic
    conversions do for [float / size_t]. *)
Definition float_of_size_t (n : size_t) : float32 := of_Z n.

(** The [rep] of [std::chrono::steady_clock::duration]: a signed 64-bit tick
    count.  A difference is taken modulo 2^64 and read back as signed, which
    is the difference itself whenever that fits in 64 bits. *)
Definition wrap_int64 (z : Z) : Z := (z + 2 ^ 63) mod 2 ^ 64 - 2 ^ 63.

(** ** The data model *)

(** Modelled from the spec: the header [openvino/genai/perf_metrics.hpp],
    which declares [TimePoint], [MicroSeconds], [MeanStdPair],
    [RawPerfMetrics] and [PerfMetrics], is not part of the sources.  The
    spec names the fields (section 3, "Data model"); their types are the
    ones the function bodies of [perf_metrics.cpp] use them at:
    [MeanStdPair] is built from two [float]s, a [MicroSeconds] is a duration
    whose [count()] is a [float] number of microseconds ([get_microsec]
    returns [float]), a [TimePoint] is a point of the steady clock, whose
    differences are integral nanosecond durations, batch sizes and the token
    counters are [size_t], and [load_time] is a [float] number of
    milliseconds. *)
Definition TimePoint : Type := Z.
Definition MicroSeconds : Type := float32.

Record MeanStdPair : Type := mkMeanStdPair {
  mean : float32;
  std : float32
}.

Record RawPerfMetrics : Type := mkRawPerfMetrics {
  generate_durations : list MicroSeconds;
  tokenization_durations : list MicroSeconds;
  detokenization_durations : list MicroSeconds;
  m_times_to_first_token : list MicroSeconds;
  m_new_token_times : list TimePoint;
  m_batch_sizes : list size_t;
  m_durations : list MicroSeconds
}.

Record PerfMetrics : Type := mkPerfMetrics {
  load_time : float32;
  ttft : MeanStdPair;
  tpot : MeanStdPair;
  throughput : MeanStdPair;
  generate_duration : MeanStdPair;
  tokenization_duration : MeanStdPair;
  detokenization_duration : MeanStdPair;
  num_generated_tokens : size_t;
  num_input_tokens : size_t;
  raw_metrics : RawPerfMetrics
}.

(** *** Time arithmetic *)

(** [a - b] on two time points: a [steady_clock::duration] in nanoseconds. *)
Definition time_diff (a b : TimePoint) : Z := wrap_int64 (a - b).

(** The converting constructor of [MicroSeconds] from a nanosecond duration:
    [duration_cast] computes in the common type [float] and divides the tick
    count by the ratio 1000. *)
Definition to_MicroSeconds (ns : Z) : MicroSeconds := div (of_Z ns) (of_Z 1000).

(** ** Failures *)

(** [OPENVINO_ASSERT] throws; indexing a vector out of its range, or using
    a reference to no object, has no defined behaviour, which the model
    makes failures of their own. *)
Inductive error : Type :=
  | AssertionFailed (msg : string)
  | OutOfRange
  | InvalidReference.

Inductive result (A : Type) : Type :=
  | Ok (a : A)
  | Err (e : error).
Arguments Ok {A} a.
Arguments Err {A} e.

Global Instance result_ret : MRet result := fun A a => Ok a.
Global Instance result_bind : MBind result := fun A B k m =>
  match m with
  | Ok a => k a
  | Err e => Err e
  end.

(** [v[i]] and [v[i] = x] on a vector. *)
Definition vec_at {A : Type} (v : list A) (i : nat) : result A :=
  match v !! i with
  | Some x => Ok x
  | None => Err OutOfRange
  end.

Definition vec_set {A : Type} (v : list A) (i : nat) (x : A) : result (list A) :=
  if decide (i < length v)%nat then Ok (<[i:=x]> v) else Err OutOfRange.

(** ** [calc_mean_and_std] *)

(** Accepts time durations in microseconds and returns standard deviation
    and mean in milliseconds.  [std::accumulate] is a left fold. *)
Definition calc_mean_and_std (durations : list MicroSeconds) : MeanStdPair :=
  let mean := fold_left (fun acc duration => add acc (div duration thousand))
                        durations zero in
  let mean := div mean (float_of_size_t (Z.of_nat (length durations))) in
  let sum_square_durations :=
    fold_left (fun acc duration =>
                 let d := div duration thousand in
                 add acc (mul d d))
              durations zero in
  let std := sqrt (sub (div sum_square_durations
                            (float_of_size_t (Z.of_nat (length durations))))
                       (mul mean mean)) in
  {| mean := mean; std := std |}.

(** ** Field updates

    An assignment to a member is a functional update of the record. *)

Definition with_raw_metrics (r : RawPerfMetrics) (p : PerfMetrics) : PerfMetrics :=
  {| load_time := load_time p; ttft := ttft p; tpot := tpot p;
     throughput := throughput p; generate_duration := generate_duration p;
     tokenization_duration := tokenization_duration p;
     detokenization_duration := detokenization_duration p;
     num_generated_tokens := num_generated_tokens p;
     num_input_tokens := num_input_tokens p;
     raw_metrics := r |}.

Definition with_load_time (x : float32) (p : PerfMetrics) : PerfMetrics :=
  {| load_time := x; ttft := ttft p; tpot := tpot p;
     throughput := throughput p; generate_duration := generate_duration p;
     tokenization_duration := tokenization_duration p;
     detokenization_duration := detokenization_duration p;
     num_generated_tokens := num_generated_tokens p;
     num_input_tokens := num_input_tokens p;
     raw_metrics := raw_metrics p |}.

Definition with_ttft (x : MeanStdPair) (p : PerfMetrics) : PerfMetrics :=
  {| load_time := load_time p; ttft := x; tpot := tpot p;
     throughput := throughput p; generate_duration := generate_duration p;
     tokenization_duration := tokenization_duration p;
     detokenization_duration := detokenization_duration p;
     num_generated_tokens := num_generated_tokens p;
     num_input_tokens := num_input_tokens p;
     raw_metrics := raw_metrics p |}.

Definition with_tpot (x : MeanStdPair) (p : PerfMetrics) : PerfMetrics :=
  {| load_time := load_time p; ttft := ttft p; tpot := x;
     throughput := throughput p; generate_duration := generate_duration p;
     tokenization_duration := tokenization_duration p;
     detokenization_duration := detokenization_duration p;
     num_generated_tokens := num_generated_tokens p;
     num_input_tokens := num_input_tokens p;
     raw_metrics := raw_metrics p |}.

Definition with_throughput (x : MeanStdPair) (p : PerfMetrics) : PerfMetrics :=
  {| load_time := load_time p; ttft := ttft p; tpot := tpot p;
     throughput := x; generate_duration := generate_duration p;
     tokenization_duration := tokenization_duration p;
     detokenization_duration := detokenization_duration p;
     num_generated_tokens := num_generated_tokens p;
     num_input_tokens := num_input_tokens p;
     raw_metrics := raw_metrics p |}.

Definition with_generate_duration (x : MeanStdPair) (p : PerfMetrics) : PerfMetrics :=
  {| load_time := load_time p; ttft := ttft p; tpot := tpot p;
     throughput := throughput p; generate_duration := x;
     tokenization_duration := tokenization_duration p;
     detokenization_duration := detokenization_duration p;
     num_generated_tokens := num_generated_tokens p;
     num_input_tokens := num_input_tokens p;
     raw_metrics := raw_metrics p |}.

Definition with_tokenization_duration (x : MeanStdPair) (p : PerfMetrics) : PerfMetrics :=
  {| load_time := load_time p; ttft := ttft p; tpot := tpot p;
     throughput := throughput p; generate_duration := generate_duration p;
     tokenization_duration := x;
     detokenization_duration := detokenization_duration p;
     num_generated_tokens := num_generated_tokens p;
     num_input_tokens := num_input_tokens p;
     raw_metrics := raw_metrics p |}.

Definition with_detokenization_duration (x : MeanStdPair) (p : PerfMetrics) : PerfMetrics :=
  {| load_time := load_time p; ttft := ttft p; tpot := tpot p;
     throughput := throughput p; generate_duration := generate_duration p;
     tokenization_duration := tokenization_duration p;
     detokenization_duration := x;
     num_generated_tokens := num_generated_tokens p;
     num_input_tokens := num_input_tokens p;
     raw_metrics := raw_metrics p |}.

Definition with_num_generated_tokens (x : size_t) (p : PerfMetrics) : PerfMetrics :=
  {| load_time := load_time p; ttft := ttft p; tpot := tpot p;
     throughput := throughput p; generate_duration := generate_duration p;
     tokenization_duration := tokenization_duration p;
     detokenization_duration := detokenization_duration p;
     num_generated_tokens := x;
     num_input_tokens := num_input_tokens p;
     raw_metrics := raw_metrics p |}.

Definition with_num_input_tokens (x : size_t) (p : PerfMetrics) : PerfMetrics :=
  {| load_time := load_time p; ttft := ttft p; tpot := tpot p;
     throughput := throughput p; generate_duration := generate_duration p;
     tokenization_duration := tokenization_duration p;
     detokenization_duration := detokenization_duration p;
     num_generated_tokens := num_generated_tokens p;
     num_input_tokens := x;
     raw_metrics := raw_metrics p |}.

Definition raw_with_generate_durations (v : list MicroSeconds) (r : RawPerfMetrics) :=
  {| generate_durations := v;
     tokenization_durations := tokenization_durations r;
     detokenization_durations := detokenization_durations r;
     m_times_to_first_token := m_times_to_first_token r;
     m_new_token_times := m_new_token_times r;
     m_batch_sizes := m_batch_sizes r;
     m_durations := m_durations r |}.

Definition raw_with_tokenization_durations (v : list MicroSeconds) (r : RawPerfMetrics) :=
  {| generate_durations := generate_durations r;
     tokenization_durations := v;
     detokenization_durations := detokenization_durations r;
     m_times_to_first_token := m_times_to_first_token r;
     m_new_token_times := m_new_token_times r;
     m_batch_sizes := m_batch_sizes r;
     m_durations := m_durations r |}.

Definition raw_with_detokenization_durations (v : list MicroSeconds) (r : RawPerfMetrics) :=
  {| generate_durations := generate_durations r;
     tokenization_durations := tokenization_durations r;
     detokenization_durations := v;
     m_times_to_first_token := m_times_to_first_token r;
     m_new_token_times := m_new_token_times r;
     m_batch_sizes := m_batch_sizes r;
     m_durations := m_durations r |}.

Definition raw_with_m_times_to_first_token (v : list MicroSeconds) (r : RawPerfMetrics) :=
  {| generate_durations := generate_durations r;
     tokenization_durations := tokenization_durations r;
     detokenization_durations := detokenization_durations r;
     m_times_to_first_token := v;
     m_new_token_times := m_new_token_times r;
     m_batch_sizes := m_batch_sizes r;
     m_durations := m_durations r |}.

Definition raw_with_m_new_token_times (v : list TimePoint) (r : RawPerfMetrics) :=
  {| generate_durations := generate_durations r;
     tokenization_durations := tokenization_durations r;
     detokenization_durations := detokenization_durations r;
     m_times_to_first_token := m_times_to_first_token r;
     m_new_token_times := v;
     m_batch_sizes := m_batch_sizes r;
     m_durations := m_durations r |}.

Definition raw_with_m_batch_sizes (v : list size_t) (r : RawPerfMetrics) :=
  {| generate_durations := generate_durations r;
     tokenization_durations := tokenization_durations r;
     detokenization_durations := detokenization_durations r;
     m_times_to_first_token := m_times_to_first_token r;
     m_new_token_times := m_new_token_times r;
     m_batch_sizes := v;
     m_durations := m_durations r |}.

Definition raw_with_m_durations (v : list MicroSeconds) (r : RawPerfMetrics) :=
  {| generate_durations := generate_durations r;
     tokenization_durations := tokenization_durations r;
     detokenization_durations := detokenization_durations r;
     m_times_to_first_token := m_times_to_first_token r;
     m_new_token_times := m_new_token_times r;
     m_batch_sizes := m_batch_sizes r;
     m_durations := v |}.

(** [raw_metrics.field = ...] reaches through the owned [raw_metrics]. *)
Definition update_raw (f : RawPerfMetrics -> RawPerfMetrics) (p : PerfMetrics) : PerfMetrics :=
  with_raw_metrics (f (raw_metrics p)) p.

(** ** [PerfMetrics::evaluate_statistics] *)

(** [for (size_t i = first; i < first + count; ++i) body]: the loop bound
    [tok_times.size()] does not change while the loop runs, so the number of
    iterations is fixed on entry. *)
Fixpoint for_range {St : Type} (body : nat -> St -> result St)
    (count first : nat) (st : St) : result St :=
  match count with
  | O => Ok st
  | S count' =>
      st' ← body first st;
      for_range body count' (S first) st'
  end.

(** One iteration of the loop of [evaluate_statistics]; the state is the
    object and the local [start_time_val]. *)
Definition durations_step (i : nat) (st : PerfMetrics * TimePoint)
    : result (PerfMetrics * TimePoint) :=
  let '(this, start_time_val) := st in
  (* raw_metrics.m_durations[i] = tok_times[i] - start_time_val; *)
  tok_i ← vec_at (m_new_token_times (raw_metrics this)) i;
  durs ← vec_set (m_durations (raw_metrics this)) i
                 (to_MicroSeconds (time_diff tok_i start_time_val));
  let this := update_raw (raw_with_m_durations durs) this in
  (* raw_metrics.m_durations[i] /= batch_sizes[i]; *)
  d_i ← vec_at (m_durations (raw_metrics this)) i;
  batch_i ← vec_at (m_batch_sizes (raw_metrics this)) i;
  durs ← vec_set (m_durations (raw_metrics this)) i
                 (div d_i (float_of_size_t batch_i));
  let this := update_raw (raw_with_m_durations durs) this in
  (* num_generated_tokens += batch_sizes[i]; *)
  batch_i ← vec_at (m_batch_sizes (raw_metrics this)) i;
  let this :=
    with_num_generated_tokens (size_t_add (num_generated_tokens this) batch_i) this in
  (* start_time_val = tok_times[i]; *)
  tok_i ← vec_at (m_new_token_times (raw_metrics this)) i;
  Ok (this, tok_i).

(** The branch taken when a start time is given: durations are recomputed
    from the token times. *)
Definition recalculate_durations (start_time_val : TimePoint) (this : PerfMetrics)
    : result PerfMetrics :=
  let tok_times := m_new_token_times (raw_metrics this) in
  let this :=
    update_raw (raw_with_m_durations (replicate (length tok_times) zero)) this in
  tok_0 ← vec_at tok_times 0;
  let ttft := time_diff tok_0 start_time_val in
  let this := update_raw (raw_with_m_times_to_first_token []) this in
  let this :=
    update_raw (fun r => raw_with_m_times_to_first_token
                           (m_times_to_first_token r ++ [to_MicroSeconds ttft]) r)
               this in
  let this := with_num_generated_tokens 0 this in
  st ← for_range durations_step (length tok_times) 0 (this, start_time_val);
  Ok (fst st).

(** The statistics proper, computed from the raw sequences. *)
Definition refresh_statistics (this : PerfMetrics) : PerfMetrics :=
  let this := with_tpot (calc_mean_and_std (m_durations (raw_metrics this))) this in
  let this :=
    with_ttft (calc_mean_and_std (m_times_to_first_token (raw_metrics this))) this in
  let this :=
    with_generate_duration
      (calc_mean_and_std (generate_durations (raw_metrics this))) this in
  let this :=
    with_generate_duration
      (calc_mean_and_std (generate_durations (raw_metrics this))) this in
  let this :=
    with_tokenization_duration
      (calc_mean_and_std (tokenization_durations (raw_metrics this))) this in
  let this :=
    with_detokenization_duration
      (calc_mean_and_std (detokenization_durations (raw_metrics this))) this in
  (* tokens per second *)
  with_throughput
    {| mean := div thousand (mean (tpot this));
       std := div (mul (std (tpot this)) thousand)
                  (mul (mean (tpot this)) (mean (tpot this))) |}
    this.

Definition evaluate_statistics (start_time : option TimePoint) (this : PerfMetrics)
    : result PerfMetrics :=
  this ← match start_time with
         | Some start_time_val => recalculate_durations start_time_val this
         | None => Ok this
         end;
  Ok (refresh_statistics this).

(** ** [PerfMetrics::operator+] and [operator+=] *)

Definition load_time_message : string :=
  "generation metrics can be accumulated only for the same pipeline".

Definition OPENVINO_ASSERT (cond : bool) (msg : string) : result unit :=
  if cond then Ok tt else Err (AssertionFailed msg).

Definition operator_plus (this right : PerfMetrics) : result PerfMetrics :=
  _ ← OPENVINO_ASSERT (eqb (load_time right) (load_time this)) load_time_message;
  (* Copy left value to res. *)
  let res := this in
  (* Concatenate durations, batch_sizes first token times. *)
  let res :=
    update_raw (fun r => raw_with_m_durations
                  (m_durations r ++ m_durations (raw_metrics right)) r) res in
  let res :=
    update_raw (fun r => raw_with_m_times_to_first_token
                  (m_times_to_first_token r
                     ++ m_times_to_first_token (raw_metrics right)) r) res in
  let res :=
    update_raw (fun r => raw_with_m_batch_sizes
                  (m_batch_sizes r ++ m_batch_sizes (raw_metrics right)) r) res in
  (* Concatenate tokenization/detokenization and total generation times. *)
  let res :=
    update_raw (fun r => raw_with_tokenization_durations
                  (tokenization_durations r
                     ++ tokenization_durations (raw_metrics right)) r) res in
  let res :=
    update_raw (fun r => raw_with_detokenization_durations
                  (detokenization_durations r
                     ++ detokenization_durations (raw_metrics right)) r) res in
  let res :=
    update_raw (fun r => raw_with_generate_durations
                  (generate_durations r
                     ++ generate_durations (raw_metrics right)) r) res in
  let res :=
    with_num_generated_tokens
      (size_t_add (num_generated_tokens this) (num_generated_tokens right)) res in
  let res :=
    with_num_input_tokens
      (size_t_add (num_generated_tokens this) (num_input_tokens right)) res in
  let res := with_load_time (load_time this) res in
  evaluate_statistics None res.

(** [*this = *this + right]: the new value of the left operand. *)
Definition operator_plus_assign (this right : PerfMetrics) : result PerfMetrics :=
  operator_plus this right.

(** ** The operators on objects in a store

    [operator+] takes its operands by reference, builds its result in a
    local object and returns it by value; [operator+=] assigns the result to
    the left operand.  To state what the calls do to the operands, and what
    happens when both references name one object, the objects live in a
    store indexed by address and the operators are programs of a state and
    failure monad over it. *)

Module Obj.

Abbreviation addr := nat.
Abbreviation store := (gmap nat PerfMetrics).

Definition M (A : Type) : Type := store -> result (A * store).

Global Instance M_ret : MRet M := fun A a h => Ok (a, h).
Global Instance M_bind : MBind M := fun A B k m h =>
  match m h with
  | Ok (a, h') => k a h'
  | Err e => Err e
  end.

Definition lift {A : Type} (r : result A) : M A := fun h =>
  match r with
  | Ok a => Ok (a, h)
  | Err e => Err e
  end.

(** Read through a reference. *)
Definition load (p : addr) : M PerfMetrics := fun h =>
  match h !! p with
  | Some v => Ok (v, h)
  | None => Err InvalidReference
  end.

(** Write through a reference. *)
Definition store_at (p : addr) (v : PerfMetrics) : M unit := fun h =>
  match h !! p with
  | Some _ => Ok (tt, <[p:=v]> h)
  | None => Err InvalidReference
  end.

(** A local object comes to life at an address nothing else uses, and
    dies at the end of its block. *)
Definition alloc (v : PerfMetrics) : M addr := fun h =>
  let p := fresh (dom h) in Ok (p, <[p:=v]> h).

Definition free (p : addr) : M unit := fun h => Ok (tt, delete p h).

(** [res.raw_metrics.field.insert(end, right.field.begin(), right.field.end())]
    and the assignments to members of [res]: read the operands through
    their references, write [res]. *)
Definition update (res : addr) (f : PerfMetrics -> PerfMetrics) : M unit :=
  v ← load res; store_at res (f v).

Definition evaluate_statistics (this : addr) (start_time : option TimePoint)
    : M unit :=
  v ← load this;
  v' ← lift (evaluate_statistics start_time v);
  store_at this v'.

Definition operator_plus (this right : addr) : M PerfMetrics :=
  l ← load this;
  r ← load right;
  _ ← lift (OPENVINO_ASSERT (eqb (load_time r) (load_time l)) load_time_message);
  (* PerfMetrics res = *this; *)
  l ← load this;
  res ← alloc l;
  r ← load right;
  _ ← update res (update_raw (fun x => raw_with_m_durations
         (m_durations x ++ m_durations (raw_metrics r)) x));
  r ← load right;
  _ ← update res (update_raw (fun x => raw_with_m_times_to_first_token
         (m_times_to_first_token x ++ m_times_to_first_token (raw_metrics r)) x));
  r ← load right;
  _ ← update res (update_raw (fun x => raw_with_m_batch_sizes
         (m_batch_sizes x ++ m_batch_sizes (raw_metrics r)) x));
  r ← load right;
  _ ← update res (update_raw (fun x => raw_with_tokenization_durations
         (tokenization_durations x ++ tokenization_durations (raw_metrics r)) x));
  r ← load right;
  _ ← update res (update_raw (fun x => raw_with_detokenization_durations
         (detokenization_durations x ++ detokenization_durations (raw_metrics r)) x));
  r ← load right;
  _ ← update res (update_raw (fun x => raw_with_generate_durations
         (generate_durations x ++ generate_durations (raw_metrics r)) x));
  l ← load this;
  r ← load right;
  _ ← update res (with_num_generated_tokens
         (size_t_add (num_generated_tokens l) (num_generated_tokens r)));
  l ← load this;
  r ← load right;
  _ ← update res (with_num_input_tokens
         (size_t_add (num_generated_tokens l) (num_input_tokens r)));
  l ← load this;
  _ ← update res (with_load_time (load_time l));
  _ ← evaluate_statistics res None;
  (* return res; *)
  v ← load res;
  _ ← free res;
  mret v.

Definition operator_plus_assign (this right : addr) : M unit :=
  v ← operator_plus this right;
  store_at this v.

End Obj.

(** ** Reference functions for the statements *)

(** The per-token durations as the loop produces them: each token time minus
    the previous one (the start time for the first), converted to
    microseconds and divided by the size of its batch. *)
Fixpoint rolling_durations (prev : TimePoint) (tok_times : list TimePoint)
    (batch_sizes : list size_t) : list MicroSeconds :=
  match tok_times, batch_sizes with
  | t :: tok_times', b :: batch_sizes' =>
      div (to_MicroSeconds (time_diff t prev)) (float_of_size_t b)
        :: rolling_durations t tok_times' batch_sizes'
  | _, _ => []
  end.

(** The sum of a list of batch sizes, as a mathematical integer. *)
Definition batch_total (batch_sizes : list size_t) : Z := foldr Z.add 0 batch_sizes.

(** [this] and [this'] agree on everything the loop of
    [evaluate_statistics] does not assign. *)
Definition loop_frame (this this' : PerfMetrics) : Prop :=
  load_time this' = load_time this /\
  ttft this' = ttft this /\ tpot this' = tpot this /\
  throughput this' = throughput this /\
  generate_duration this' = generate_duration this /\
  tokenization_duration this' = tokenization_duration this /\
  detokenization_duration this' = detokenization_duration this /\
  num_input_tokens this' = num_input_tokens this /\
  generate_durations (raw_metrics this') = generate_durations (raw_metrics this) /\
  tokenization_durations (raw_metrics this') = tokenization_durations (raw_metrics this) /\
  detokenization_durations (raw_metrics this') = detokenization_durations (raw_metrics this) /\
  m_times_to_first_token (raw_metrics this') = m_times_to_first_token (raw_metrics this) /\
  m_new_token_times (raw_metrics this') = m_new_token_times (raw_metrics this) /\
  m_batch_sizes (raw_metrics this') = m_batch_sizes (raw_metrics this) /\
  length (m_durations (raw_metrics this')) = length (m_durations (raw_metrics this)).

(** The object after the durations have been recomputed from a start time,
    when the first token time is [tok_0]. *)
Definition recalculated (start_time tok_0 : TimePoint) (this : PerfMetrics)
    : PerfMetrics :=
  let tok_times := m_new_token_times (raw_metrics this) in
  let batch_sizes := m_batch_sizes (raw_metrics this) in
  with_num_generated_tokens
    (wrap_size_t (batch_total (take (length tok_times) batch_sizes)))
    (update_raw
       (fun r =>
          raw_with_m_durations (rolling_durations start_time tok_times batch_sizes)
            (raw_with_m_times_to_first_token
               [to_MicroSeconds (time_diff tok_0 start_time)] r))
       this).

(** The object [operator+] hands to [evaluate_statistics]: the left operand
    with the six concatenated sequences and the two assigned counters. *)
Definition concatenated (this right : PerfMetrics) : PerfMetrics :=
  {| load_time := load_time this;
     ttft := ttft this; tpot := tpot this; throughput := throughput this;
     generate_duration := generate_duration this;
     tokenization_duration := tokenization_duration this;
     detokenization_duration := detokenization_duration this;
     num_generated_tokens :=
       size_t_add (num_generated_tokens this) (num_generated_tokens right);
     num_input_tokens :=
       size_t_add (num_generated_tokens this) (num_input_tokens right);
     raw_metrics :=
       {| generate_durations :=
            generate_durations (raw_metrics this)
              ++ generate_durations (raw_metrics right);
          tokenization_durations :=
            tokenization_durations (raw_metrics this)
              ++ tokenization_durations (raw_metrics right);
          detokenization_durations :=
            detokenization_durations (raw_metrics this)
              ++ detokenization_durations (raw_metrics right);
          m_times_to_first_token :=
            m_times_to_first_token (raw_metrics this)
              ++ m_times_to_first_token (raw_metrics right);
          m_new_token_times := m_new_token_times (raw_metrics this);
          m_batch_sizes :=
            m_batch_sizes (raw_metrics this) ++ m_batch_sizes (raw_metrics right);
          m_durations :=
            m_durations (raw_metrics this) ++ m_durations (raw_metrics right) |} |}.

(** The derived statistics as a function of raw sequences alone. *)
Definition throughput_of (tpot : MeanStdPair) : MeanStdPair :=
  {| mean := div thousand (mean tpot);
     std := div (mul (std tpot) thousand) (mul (mean tpot) (mean tpot)) |}.

(** ** Sample objects *)

Definition no_statistics : MeanStdPair := {| mean := zero; std := zero |}.

(** An object with the given load time (ms), counters, token times (ns),
    batch sizes and durations (microseconds); one tokenization, one
    detokenization and one generate duration of a millisecond each. *)
Definition sample (load : Z) (generated input : size_t)
    (tok_times : list TimePoint) (batch_sizes : list size_t)
    (durations first_token : list Z) : PerfMetrics :=
  {| load_time := of_Z load;
     ttft := no_statistics; tpot := no_statistics; throughput := no_statistics;
     generate_duration := no_statistics;
     tokenization_duration := no_statistics;
     detokenization_duration := no_statistics;
     num_generated_tokens := generated;
     num_input_tokens := input;
     raw_metrics :=
       {| generate_durations := [of_Z 1000];
          tokenization_durations := [of_Z 1000];
          detokenization_durations := [of_Z 1000];
          m_times_to_first_token := map of_Z first_token;
          m_new_token_times := tok_times;
          m_batch_sizes := batch_sizes;
          m_durations := map of_Z durations |} |}.

(** Two requests of one pipeline (load time 100 ms): the first read 2 input
    tokens and generated 5, the second read 4 and generated 1. *)
Definition request_a : PerfMetrics :=
  sample 100 5 2 [900000; 1900000] [3; 2] [300; 500] [900].
Definition request_b : PerfMetrics :=
  sample 100 1 4 [2000000] [1] [2000] [2000].
Definition request_c : PerfMetrics :=
  sample 100 2 7 [700000; 1800000] [1; 1] [700; 1100] [700].

(** A request of another pipeline (load time 250 ms). *)
Definition request_other : PerfMetrics :=
  sample 250 1 4 [2000000] [1] [2000] [2000].

(** Three tokens, one per step, 10.014 ms apart, the first 10.014 ms after
    a start at time 0. *)
Definition steady_request : PerfMetrics :=
  sample 100 0 3 [10014000; 20028000; 30042000] [1; 1; 1] [] [].

(** Three tokens, one per step, exactly 10 ms apart after [start]. *)
Definition three_steps (start : TimePoint) : PerfMetrics :=
  sample 100 0 3 [start + 10000000; start + 20000000; start + 30000000]
         [1; 1; 1] [] [].

(** One batch of five tokens, 10 ms after [start]. *)
Definition batch_of_five (start : TimePoint) : PerfMetrics :=
  sample 100 0 3 [start + 10000000] [5] [] [].

(** A store that holds [request_a] at address 0 and [request_b] at
    address 1. *)
Definition two_requests : gmap nat PerfMetrics :=
  <[1%nat:=request_b]> {[0%nat:=request_a]}.

(** ** [PerfMetrics::get_microsec] *)

(** [duration_cast<microseconds>] of a nanosecond duration divides the tick
    count by 1000 as integers, which truncates toward zero; the count is
    then returned as a [float]. *)
Definition get_microsec (duration : Z) : float32 := of_Z (Z.quot duration 1000).

(** ** Repeated accumulation *)

(** [this += r] for each [r] of [rights] in turn; a call that throws ends
    the sequence. *)
Fixpoint accumulate (this : PerfMetrics) (rights : list PerfMetrics)
    : result PerfMetrics :=
  match rights with
  | [] => Ok this
  | r :: rights' =>
      this' ← operator_plus_assign this r;
      accumulate this' rights'
  end.

(** ** Predicates for the statements *)

(** A float that is a NaN or compares [>= 0]. *)
Definition nan_or_nonneg (x : float32) : Prop :=
  x = S754_nan \/ leb zero x = true.

(** A float that is a NaN or an infinity. *)
Definition not_finite (x : float32) : Prop :=
  x = S754_nan \/ exists s, x = S754_infinity s.

(** The generated-token counter agrees with the batch sizes. *)
Definition tokens_consistent (p : PerfMetrics) : Prop :=
  num_generated_tokens p = wrap_size_t (batch_total (m_batch_sizes (raw_metrics p))).

(** Two objects agree on everything but the derived statistics. *)
Definition same_measurements (p q : PerfMetrics) : Prop :=
  load_time p = load_time q /\
  num_generated_tokens p = num_generated_tokens q /\
  num_input_tokens p = num_input_tokens q /\
  raw_metrics p = raw_metrics q.

(** Two objects agree on what [evaluate_statistics] with a start time
    reads: the token times, the batch sizes, the three sequences it does
    not recompute, the load time and the input-token counter. *)
Definition same_timeline (p q : PerfMetrics) : Prop :=
  load_time p = load_time q /\
  num_input_tokens p = num_input_tokens q /\
  m_new_token_times (raw_metrics p) = m_new_token_times (raw_metrics q) /\
  m_batch_sizes (raw_metrics p) = m_batch_sizes (raw_metrics q) /\
  generate_durations (raw_metrics p) = generate_durations (raw_metrics q) /\
  tokenization_durations (raw_metrics p) = tokenization_durations (raw_metrics q) /\
  detokenization_durations (raw_metrics p) = detokenization_durations (raw_metrics q).

(** A float whose sign bit is clear, or a NaN. *)
Definition sign_clear (x : float32) : Prop :=
  match x with
  | S754_zero s | S754_infinity s | S754_finite s _ _ => s = false
  | S754_nan => True
  end.

(** Token times that never go back, from [prev] on. *)
Fixpoint non_decreasing (prev : TimePoint) (tok_times : list TimePoint) : Prop :=
  match tok_times with
  | [] => True
  | t :: tok_times' => prev <= t /\ non_decreasing t tok_times'
  end.

(** A reading of the steady clock: a non-negative signed 64-bit count. *)
Definition clock_reading (t : TimePoint) : Prop := 0 <= t < 2 ^ 63.

(** [request_a] with stale statistics, stale durations and a stale counter. *)
Definition request_a_stale : PerfMetrics :=
  with_num_generated_tokens 77
    (with_tpot {| mean := of_Z 1; std := of_Z 2 |}
       (update_raw (raw_with_m_durations [of_Z 1; of_Z 2; of_Z 3]) request_a)).

(** [request_a] with a load time that is not a number. *)
Definition request_nan : PerfMetrics := with_load_time S754_nan request_a.

(** Two tokens reported with a batch size of zero for the second. *)
Definition request_zero_batch : PerfMetrics :=
  sample 100 0 3 [900000; 1900000] [3; 0] [] [].

(** * Properties *)

(** ** Float comparison *)

Section FloatEq.

Lemma compare_cont_Eq_inv (m n : positive) :
  Pos.compare_cont Eq m n = Eq -> m = n.
Proof. intros H. apply Pos.compare_eq. exact H. Qed.

(** Two floats that compare equal are the same value, or two zeros. *)
Lemma eqb_true_inv (x y : float32) :
  eqb x y = true ->
  x = y \/ exists s s', x = S754_zero s /\ y = S754_zero s'.
Proof.
  unfold eqb, SFeqb.
  destruct x as [sx|sx| |sx mx ex], y as [sy|sy| |sy my ey]; simpl;
    try discriminate;
    try (destruct sx; discriminate);
    try (destruct sy; discriminate).
  - intros _. right. eauto.
  - destruct sx, sy; try discriminate; intros _; left; reflexivity.
  - destruct sx, sy; try discriminate.
    + destruct (Z.compare_spec ex ey) as [->| |]; try discriminate.
      intros H. left. f_equal.
      destruct (Pos.compare_cont Eq mx my) eqn:E; try discriminate.
      now apply compare_cont_Eq_inv.
    + destruct (Z.compare_spec ex ey) as [->| |]; try discriminate.
      intros H. left. f_equal.
      destruct (Pos.compare_cont Eq mx my) eqn:E; try discriminate.
      now apply compare_cont_Eq_inv.
Qed.

Lemma eqb_zeros (s s' : bool) : eqb (S754_zero s) (S754_zero s') = true.
Proof. reflexivity. Qed.

Lemma eqb_sym_true (x y : float32) : eqb x y = true -> eqb y x = true.
Proof.
  intros H. destruct (eqb_true_inv x y H) as [->|(s & s' & -> & ->)].
  - exact H.
  - apply eqb_zeros.
Qed.

Lemma eqb_sym (x y : float32) : eqb x y = eqb y x.
Proof.
  destruct (eqb x y) eqn:Hxy, (eqb y x) eqn:Hyx; try reflexivity.
  - apply eqb_sym_true in Hxy. congruence.
  - apply eqb_sym_true in Hyx. congruence.
Qed.

Lemma eqb_trans (x y z : float32) :
  eqb x y = true -> eqb y z = true -> eqb x z = true.
Proof.
  intros Hxy Hyz.
  destruct (eqb_true_inv x y Hxy) as [->|(s & s' & -> & ->)]; [exact Hyz|].
  destruct (eqb_true_inv _ z Hyz) as [<-|(t & t' & _ & ->)]; apply eqb_zeros.
Qed.

End FloatEq.

(** ** Vector access *)

Section Vectors.
Context {A : Type}.
Implicit Types (v pre suf : list A) (x y : A).

Lemma vec_at_middle pre x suf i :
  length pre = i -> vec_at (pre ++ x :: suf) i = Ok x.
Proof. intros <-. unfold vec_at. now rewrite list_lookup_middle. Qed.

Lemma vec_set_middle pre x suf i y :
  length pre = i -> vec_set (pre ++ x :: suf) i y = Ok (pre ++ y :: suf).
Proof.
  intros <-. unfold vec_set.
  destruct (decide _) as [_|Hn].
  - f_equal. rewrite insert_app_r_alt by lia.
    now rewrite Nat.sub_diag.
  - exfalso. apply Hn. rewrite length_app. simpl. lia.
Qed.

Lemma vec_at_Ok v i x : vec_at v i = Ok x -> v !! i = Some x.
Proof. unfold vec_at. destruct (v !! i); congruence. Qed.

Lemma vec_set_Ok v i y v' :
  vec_set v i y = Ok v' -> v' = <[i:=y]> v /\ (i < length v)%nat.
Proof. unfold vec_set. destruct (decide _); [|discriminate]. intros [= <-]. auto. Qed.

End Vectors.

(** Inversion of a bind in the failure monad. *)
Lemma bind_Ok_inv {A B : Type} (m : result A) (k : A -> result B) (b : B) :
  (m ≫= k) = Ok b -> exists a, m = Ok a /\ k a = Ok b.
Proof. destruct m as [a|e]; simpl; [eauto|discriminate]. Qed.

(** ** The loop of [evaluate_statistics] *)

Section Loop.

Lemma wrap_size_t_add_l (a b : Z) :
  wrap_size_t (wrap_size_t a + b) = wrap_size_t (a + b).
Proof. unfold wrap_size_t. apply Z.add_mod_idemp_l. unfold SIZE_MODULUS. lia. Qed.

Lemma wrap_size_t_small (a : Z) : in_size_t a -> wrap_size_t a = a.
Proof. unfold in_size_t, wrap_size_t. intros H. now apply Z.mod_small. Qed.

Lemma loop_frame_refl this : loop_frame this this.
Proof. unfold loop_frame. tauto. Qed.

Lemma loop_frame_trans p q r : loop_frame p q -> loop_frame q r -> loop_frame p r.
Proof. unfold loop_frame. intros Hpq Hqr. intuition congruence. Qed.

(** One iteration at index [i = length tpre]: the state it produces. *)
Lemma durations_step_middle
    lt a1 a2 a3 a4 a5 a6 ngt nit g tk dtk ttf
    (tpre tsuf : list TimePoint) (t : TimePoint)
    (bpre bsuf : list size_t) (b : size_t)
    (dpre dsuf : list MicroSeconds) (d : MicroSeconds)
    (start_time_val : TimePoint) (i : nat) :
  length tpre = i -> length bpre = i -> length dpre = i ->
  durations_step i
    (mkPerfMetrics lt a1 a2 a3 a4 a5 a6 ngt nit
       (mkRawPerfMetrics g tk dtk ttf (tpre ++ t :: tsuf) (bpre ++ b :: bsuf)
          (dpre ++ d :: dsuf)),
     start_time_val)
  = Ok (mkPerfMetrics lt a1 a2 a3 a4 a5 a6 (size_t_add ngt b) nit
          (mkRawPerfMetrics g tk dtk ttf (tpre ++ t :: tsuf) (bpre ++ b :: bsuf)
             (dpre ++ div (to_MicroSeconds (time_diff t start_time_val))
                          (float_of_size_t b) :: dsuf)),
        t).
Proof.
  intros Ht Hb Hd. unfold durations_step.
  repeat (cbn [mbind result_bind update_raw with_raw_metrics raw_metrics
               with_num_generated_tokens num_generated_tokens
               raw_with_m_durations m_durations m_batch_sizes m_new_token_times];
          first [ rewrite (vec_at_middle tpre t tsuf i Ht)
                | rewrite (vec_at_middle bpre b bsuf i Hb)
                | rewrite (vec_at_middle dpre _ dsuf i Hd)
                | rewrite (vec_set_middle dpre _ dsuf i _ Hd) ]).
  reflexivity.
Qed.

(** The whole loop, started at index [length tpre] with as many iterations
    as token times remain. *)
Lemma for_range_durations
    lt a1 a2 a3 a4 a5 a6 nit g tk dtk ttf (tsuf : list TimePoint) :
  forall (tpre : list TimePoint) (bpre bsuf : list size_t)
         (dpre dsuf : list MicroSeconds) (ngt : Z) (start_time_val : TimePoint),
  length bpre = length tpre -> length dpre = length tpre ->
  length dsuf = length tsuf -> (length tsuf <= length bsuf)%nat ->
  exists last,
  for_range durations_step (length tsuf) (length tpre)
    (mkPerfMetrics lt a1 a2 a3 a4 a5 a6 ngt nit
       (mkRawPerfMetrics g tk dtk ttf (tpre ++ tsuf) (bpre ++ bsuf) (dpre ++ dsuf)),
     start_time_val)
  = Ok (mkPerfMetrics lt a1 a2 a3 a4 a5 a6
          (fold_left size_t_add (take (length tsuf) bsuf) ngt) nit
          (mkRawPerfMetrics g tk dtk ttf (tpre ++ tsuf) (bpre ++ bsuf)
             (dpre ++ rolling_durations start_time_val tsuf bsuf)),
        last).
Proof.
  induction tsuf as [|t tsuf IH]; intros tpre bpre bsuf dpre dsuf ngt sv Hb Hd Hds Hle.
  - destruct dsuf; [|discriminate]. exists sv. reflexivity.
  - destruct dsuf as [|d dsuf]; [discriminate|].
    destruct bsuf as [|b bsuf]; [simpl in Hle; lia|].
    simpl in Hds, Hle.
    cbn [length for_range].
    rewrite (durations_step_middle _ _ _ _ _ _ _ _ _ _ _ _ _ tpre tsuf t bpre bsuf b
               dpre dsuf d sv (length tpre) eq_refl Hb Hd).
    cbn [mbind result_bind].
    specialize (IH (tpre ++ [t]) (bpre ++ [b]) bsuf
                   (dpre ++ [div (to_MicroSeconds (time_diff t sv)) (float_of_size_t b)])
                   dsuf (size_t_add ngt b) t).
    rewrite !length_app in IH. cbn [length] in IH.
    rewrite <- !app_assoc in IH. cbn [app] in IH.
    replace (length tpre + 1)%nat with (S (length tpre)) in IH by lia.
    destruct IH as [last IH]; try lia.
    exists last. etrans; [exact IH|reflexivity].
Qed.

Lemma fold_size_t_add (bs : list size_t) (acc : Z) :
  fold_left size_t_add bs (wrap_size_t acc) = wrap_size_t (acc + batch_total bs).
Proof.
  revert acc. induction bs as [|b bs IH]; intros acc.
  - cbn. now rewrite Z.add_0_r.
  - cbn [fold_left]. unfold size_t_add at 2. rewrite wrap_size_t_add_l.
    rewrite IH. unfold batch_total. cbn [foldr]. f_equal. lia.
Qed.

Lemma batch_total_nonneg (bs : list size_t) :
  Forall (fun b => 0 <= b) bs -> 0 <= batch_total bs.
Proof.
  induction 1 as [|b bs Hb _ IH]; unfold batch_total in *; cbn [foldr]; lia.
Qed.

Lemma rolling_durations_length prev (toks : list TimePoint) (bs : list size_t) :
  (length toks <= length bs)%nat ->
  length (rolling_durations prev toks bs) = length toks.
Proof.
  revert prev bs. induction toks as [|t toks IH]; intros prev bs Hle; [reflexivity|].
  destruct bs as [|b bs]; [simpl in Hle; lia|].
  cbn [rolling_durations length]. f_equal. apply IH. simpl in Hle. lia.
Qed.

(** Entry [0] is measured from the start time. *)
Lemma rolling_durations_head prev (toks : list TimePoint) (bs : list size_t) t b :
  toks !! 0%nat = Some t -> bs !! 0%nat = Some b ->
  rolling_durations prev toks bs !! 0%nat
  = Some (div (to_MicroSeconds (time_diff t prev)) (float_of_size_t b)).
Proof.
  destruct toks as [|t' toks]; [discriminate|].
  destruct bs as [|b' bs]; [discriminate|].
  cbn. intros [= ->] [= ->]. reflexivity.
Qed.

(** Entry [i > 0] is measured from the token time before it. *)
Lemma rolling_durations_lookup (toks : list TimePoint) :
  forall prev (bs : list size_t) (i : nat) t t' b,
  (0 < i)%nat ->
  toks !! i = Some t -> toks !! (i - 1)%nat = Some t' -> bs !! i = Some b ->
  rolling_durations prev toks bs !! i
  = Some (div (to_MicroSeconds (time_diff t t')) (float_of_size_t b)).
Proof.
  induction toks as [|t0 toks IH]; intros prev bs i t t' b Hi Ht Ht' Hb;
    [discriminate|].
  destruct bs as [|b0 bs]; [discriminate|].
  destruct i as [|i]; [lia|].
  cbn [rolling_durations]. cbn in Ht, Ht', Hb |- *.
  rewrite Nat.sub_0_r in Ht'.
  destruct i as [|i].
  - cbn in Ht'. injection Ht' as <-.
    now apply rolling_durations_head.
  - apply IH; try assumption; try lia.
    cbn. now rewrite Nat.sub_0_r.
Qed.

End Loop.

(** ** [evaluate_statistics] as a function of the raw sequences *)

Section EvaluateStatistics.

Lemma durations_step_frame i this sv this' sv' :
  durations_step i (this, sv) = Ok (this', sv') -> loop_frame this this'.
Proof.
  unfold durations_step. intros H.
  apply bind_Ok_inv in H as (tok_i & _ & H).
  apply bind_Ok_inv in H as (durs & Hd1 & H).
  apply bind_Ok_inv in H as (d_i & _ & H).
  apply bind_Ok_inv in H as (batch_i & _ & H).
  apply bind_Ok_inv in H as (durs' & Hd2 & H).
  apply bind_Ok_inv in H as (batch_i' & _ & H).
  apply bind_Ok_inv in H as (tok_i' & _ & H).
  injection H as <- _.
  apply vec_set_Ok in Hd1 as [-> _]. apply vec_set_Ok in Hd2 as [-> _].
  destruct this as [? ? ? ? ? ? ? ? ? []].
  unfold loop_frame. cbn. rewrite !length_insert. tauto.
Qed.

Lemma for_range_frame count :
  forall first this sv this' sv',
  for_range durations_step count first (this, sv) = Ok (this', sv') ->
  loop_frame this this'.
Proof.
  induction count as [|count IH]; intros first this sv this' sv' H.
  - injection H as <- _. apply loop_frame_refl.
  - cbn [for_range] in H. apply bind_Ok_inv in H as ([this1 sv1] & H1 & H).
    eapply loop_frame_trans.
    + eapply durations_step_frame, H1.
    + eapply IH, H.
Qed.

(** What [recalculate_durations] leaves alone, whenever it returns. *)
Lemma recalculate_durations_frame sv this this' :
  recalculate_durations sv this = Ok this' ->
  exists tok_0, m_new_token_times (raw_metrics this) !! 0%nat = Some tok_0 /\
  m_times_to_first_token (raw_metrics this')
    = [to_MicroSeconds (time_diff tok_0 sv)] /\
  m_new_token_times (raw_metrics this') = m_new_token_times (raw_metrics this) /\
  m_batch_sizes (raw_metrics this') = m_batch_sizes (raw_metrics this) /\
  length (m_durations (raw_metrics this'))
    = length (m_new_token_times (raw_metrics this)) /\
  load_time this' = load_time this /\
  num_input_tokens this' = num_input_tokens this.
Proof.
  unfold recalculate_durations. intros H.
  apply bind_Ok_inv in H as (tok_0 & H0 & H).
  apply bind_Ok_inv in H as ([this1 sv1] & Hloop & H).
  injection H as <-. apply vec_at_Ok in H0.
  apply for_range_frame in Hloop.
  destruct this as [? ? ? ? ? ? ? ? ? []].
  unfold loop_frame in Hloop. cbn in Hloop |- *. cbn in H0.
  exists tok_0. rewrite length_replicate in Hloop.
  intuition congruence.
Qed.

(** With a first token time and a batch size for every token time,
    [recalculate_durations] returns, and returns [recalculated]. *)
Lemma recalculate_durations_Ok sv this tok_0 rest :
  m_new_token_times (raw_metrics this) = tok_0 :: rest ->
  (length (tok_0 :: rest) <= length (m_batch_sizes (raw_metrics this)))%nat ->
  recalculate_durations sv this = Ok (recalculated sv tok_0 this).
Proof.
  destruct this as [lt a1 a2 a3 a4 a5 a6 ngt nit [g tk dtk ttf toks bs durs]].
  cbn [raw_metrics m_new_token_times m_batch_sizes]. intros -> Hle.
  unfold recalculate_durations, recalculated.
  cbn [raw_metrics m_new_token_times m_batch_sizes update_raw with_raw_metrics
       raw_with_m_durations raw_with_m_times_to_first_token
       m_times_to_first_token with_num_generated_tokens app].
  change (vec_at (tok_0 :: rest) 0) with (Ok tok_0). cbn [mbind result_bind].
  destruct (for_range_durations lt a1 a2 a3 a4 a5 a6 nit g tk dtk
              [to_MicroSeconds (time_diff tok_0 sv)] (tok_0 :: rest)
              [] [] bs [] (replicate (length (tok_0 :: rest)) zero) 0 sv
              eq_refl eq_refl) as [last Hloop].
  - apply length_replicate.
  - exact Hle.
  - cbn [app length] in Hloop. cbn [length].
    etrans; [apply (f_equal (fun r => r ≫= _) Hloop)|].
    cbn [mbind result_bind fst].
    change 0 with (wrap_size_t 0) at 1. rewrite fold_size_t_add.
    reflexivity.
Qed.

Lemma evaluate_statistics_None this :
  evaluate_statistics None this = Ok (refresh_statistics this).
Proof. reflexivity. Qed.

Lemma evaluate_statistics_Some sv this tok_0 rest :
  m_new_token_times (raw_metrics this) = tok_0 :: rest ->
  (length (tok_0 :: rest) <= length (m_batch_sizes (raw_metrics this)))%nat ->
  evaluate_statistics (Some sv) this
  = Ok (refresh_statistics (recalculated sv tok_0 this)).
Proof.
  intros Ht Hle. unfold evaluate_statistics.
  now rewrite (recalculate_durations_Ok sv this tok_0 rest Ht Hle).
Qed.

Lemma evaluate_statistics_Ok_inv start this this' :
  evaluate_statistics start this = Ok this' ->
  exists mid, this' = refresh_statistics mid /\
    match start with
    | Some sv => recalculate_durations sv this = Ok mid
    | None => mid = this
    end.
Proof.
  unfold evaluate_statistics. intros H.
  apply bind_Ok_inv in H as (mid & Hmid & H). injection H as <-.
  exists mid. split; [reflexivity|].
  destruct start; [exact Hmid|]. now injection Hmid.
Qed.

(** [refresh_statistics] assigns the derived fields only. *)
Lemma refresh_statistics_raw this :
  raw_metrics (refresh_statistics this) = raw_metrics this.
Proof. reflexivity. Qed.

Lemma refresh_statistics_counters this :
  num_generated_tokens (refresh_statistics this) = num_generated_tokens this /\
  num_input_tokens (refresh_statistics this) = num_input_tokens this /\
  load_time (refresh_statistics this) = load_time this.
Proof. repeat split. Qed.

Lemma refresh_statistics_tpot this :
  tpot (refresh_statistics this) = calc_mean_and_std (m_durations (raw_metrics this)).
Proof. reflexivity. Qed.

End EvaluateStatistics.

(** ** [operator+] as a function of its operands *)

Section Merge.

Lemma refresh_statistics_unfold this :
  refresh_statistics this =
  {| load_time := load_time this;
     ttft := calc_mean_and_std (m_times_to_first_token (raw_metrics this));
     tpot := calc_mean_and_std (m_durations (raw_metrics this));
     throughput := throughput_of (calc_mean_and_std (m_durations (raw_metrics this)));
     generate_duration := calc_mean_and_std (generate_durations (raw_metrics this));
     tokenization_duration :=
       calc_mean_and_std (tokenization_durations (raw_metrics this));
     detokenization_duration :=
       calc_mean_and_std (detokenization_durations (raw_metrics this));
     num_generated_tokens := num_generated_tokens this;
     num_input_tokens := num_input_tokens this;
     raw_metrics := raw_metrics this |}.
Proof. reflexivity. Qed.

Lemma operator_plus_unfold this right :
  operator_plus this right =
  if eqb (load_time right) (load_time this)
  then Ok (refresh_statistics (concatenated this right))
  else Err (AssertionFailed load_time_message).
Proof.
  unfold operator_plus, OPENVINO_ASSERT.
  destruct (eqb (load_time right) (load_time this)); [|reflexivity].
  destruct this as [? ? ? ? ? ? ? ? ? []]. reflexivity.
Qed.

Lemma operator_plus_Ok this right :
  eqb (load_time right) (load_time this) = true ->
  operator_plus this right = Ok (refresh_statistics (concatenated this right)).
Proof. intros H. now rewrite operator_plus_unfold, H. Qed.

Lemma operator_plus_Ok_inv this right res :
  operator_plus this right = Ok res ->
  eqb (load_time right) (load_time this) = true /\
  res = refresh_statistics (concatenated this right).
Proof.
  rewrite operator_plus_unfold.
  destruct (eqb (load_time right) (load_time this)); [|discriminate].
  intros [= <-]. auto.
Qed.

Lemma size_t_add_assoc (a b c : Z) :
  size_t_add (size_t_add a b) c = size_t_add a (size_t_add b c).
Proof.
  unfold size_t_add, wrap_size_t.
  rewrite Z.add_mod_idemp_l, Z.add_mod_idemp_r by (unfold SIZE_MODULUS; lia).
  f_equal. lia.
Qed.

(** The counters of a merge: both start from the generated-token count of
    the left operand. *)
Lemma operator_plus_counters this right res :
operator_plus this right = Ok res ->
num_generated_tokens res
  = size_t_add (num_generated_tokens this) (num_generated_tokens right) /\
num_input_tokens res
  = size_t_add (num_generated_tokens this) (num_input_tokens right).
Proof. intros H. apply operator_plus_Ok_inv in H as [_ ->]. split; reflexivity. Qed.

Lemma concatenated_assoc a b c :
  refresh_statistics (concatenated (refresh_statistics (concatenated a b)) c)
  = refresh_statistics (concatenated a (refresh_statistics (concatenated b c))).
Proof.
  rewrite !refresh_statistics_unfold. unfold concatenated.
  cbn [load_time num_generated_tokens num_input_tokens raw_metrics
       generate_durations tokenization_durations detokenization_durations
       m_times_to_first_token m_new_token_times m_batch_sizes m_durations].
  rewrite !size_t_add_assoc, <- !app_assoc. reflexivity.
Qed.

End Merge.

(** ** The operators on stored objects *)

Section Objects.

Lemma bind_run {A B : Type} (m : Obj.M A) (k : A -> Obj.M B) (h h' : Obj.store) (a : A) :
  m h = Ok (a, h') -> (m ≫= k) h = k a h'.
Proof. intros H. unfold mbind, Obj.M_bind. now rewrite H. Qed.

Lemma load_run (p : Obj.addr) (h : Obj.store) v :
  h !! p = Some v -> Obj.load p h = Ok (v, h).
Proof. intros H. unfold Obj.load. now rewrite H. Qed.

Lemma store_at_run (p : Obj.addr) (h : Obj.store) v w :
  h !! p = Some v -> Obj.store_at p w h = Ok (tt, <[p:=w]> h).
Proof. intros H. unfold Obj.store_at. now rewrite H. Qed.

(** [update] overwrites the local object and nothing else. *)
Lemma update_run (p : Obj.addr) (h : Obj.store) f v :
  Obj.update p f (<[p:=v]> h) = Ok (tt, <[p:=f v]> h).
Proof.
  unfold Obj.update.
  rewrite (bind_run _ _ _ _ _ (load_run p _ v (lookup_insert_eq h p v))).
  rewrite (store_at_run p _ v _ (lookup_insert_eq h p v)).
  now rewrite insert_insert_eq.
Qed.

Lemma load_other_run (p q : Obj.addr) (h : Obj.store) v x :
  q <> p -> h !! q = Some x -> Obj.load q (<[p:=v]> h) = Ok (x, <[p:=v]> h).
Proof. intros Hne Hq. apply load_run. now rewrite lookup_insert_ne. Qed.

Lemma evaluate_statistics_run (p : Obj.addr) (h : Obj.store) v :
  Obj.evaluate_statistics p None (<[p:=v]> h)
  = Ok (tt, <[p:=refresh_statistics v]> h).
Proof.
  unfold Obj.evaluate_statistics.
  rewrite (bind_run _ _ _ _ _ (load_run p _ v (lookup_insert_eq h p v))).
  rewrite evaluate_statistics_None. unfold Obj.lift.
  unfold mbind, Obj.M_bind.
  rewrite (store_at_run p _ v _ (lookup_insert_eq h p v)).
  now rewrite insert_insert_eq.
Qed.

Lemma free_run (p : Obj.addr) (h : Obj.store) v :
  h !! p = None -> Obj.free p (<[p:=v]> h) = Ok (tt, h).
Proof.
  intros H. unfold Obj.free. rewrite delete_insert_eq. now rewrite delete_id.
Qed.

(** Running [operator+] on two stored operands: the store it leaves is the
    store it found, and the value it returns is the one the function on
    values computes. *)
Lemma operator_plus_run (this right : Obj.addr) (h : Obj.store) a b :
  h !! this = Some a -> h !! right = Some b ->
  Obj.operator_plus this right h =
  match operator_plus a b with
  | Ok v => Ok (v, h)
  | Err e => Err e
  end.
Proof.
  intros Ha Hb. rewrite operator_plus_unfold. unfold Obj.operator_plus.
  rewrite (bind_run _ _ _ _ _ (load_run this h a Ha)).
  rewrite (bind_run _ _ _ _ _ (load_run right h b Hb)).
  unfold OPENVINO_ASSERT.
  destruct (eqb (load_time b) (load_time a)); [|reflexivity].
  unfold Obj.lift at 1. unfold mbind at 1, Obj.M_bind at 1.
  rewrite (bind_run _ _ _ _ _ (load_run this h a Ha)).
  set (p := fresh (dom h)).
  assert (Hp : h !! p = None) by (apply not_elem_of_dom, is_fresh).
  assert (Hpa : this <> p) by (intros E; rewrite E, Hp in Ha; discriminate).
  assert (Hpb : right <> p) by (intros E; rewrite E, Hp in Hb; discriminate).
  unfold Obj.alloc at 1. unfold mbind at 1, Obj.M_bind at 1. fold p.
  repeat first
    [ rewrite (bind_run _ _ _ _ _ (load_other_run p this h _ a Hpa Ha))
    | rewrite (bind_run _ _ _ _ _ (load_other_run p right h _ b Hpb Hb))
    | rewrite (bind_run _ _ _ _ _ (update_run p h _ _))
    | rewrite (bind_run _ _ _ _ _ (evaluate_statistics_run p h _))
    | rewrite (bind_run _ _ _ _ _ (load_run p _ _ (lookup_insert_eq h p _)))
    | rewrite (bind_run _ _ _ _ _ (free_run p h _ Hp)) ].
  unfold mret, Obj.M_ret. reflexivity.
Qed.

Lemma operator_plus_assign_run (this right : Obj.addr) (h : Obj.store) a b :
  h !! this = Some a -> h !! right = Some b ->
  Obj.operator_plus_assign this right h =
  match operator_plus_assign a b with
  | Ok v => Ok (tt, <[this:=v]> h)
  | Err e => Err e
  end.
Proof.
  intros Ha Hb. unfold Obj.operator_plus_assign, operator_plus_assign.
  unfold mbind, Obj.M_bind. rewrite (operator_plus_run this right h a b Ha Hb).
  destruct (operator_plus a b) as [v|e]; [|reflexivity].
  apply (store_at_run this h a v Ha).
Qed.

End Objects.

(** ** [calc_mean_and_std] on floats *)

Section MeanAndStd.

(** A square root is a NaN or compares [>= 0]. *)
Lemma sqrt_nan_or_nonneg (x : float32) :
  sqrt x = S754_nan \/ leb zero (sqrt x) = true.
Proof.
  destruct x as [s|s| |s m e].
  - right. destruct s; reflexivity.
  - destruct s; [left|right]; reflexivity.
  - left. reflexivity.
  - destruct s; [left; reflexivity|].
    unfold sqrt, SFsqrt.
    destruct (SFsqrt_core_binary prec emax (Z.pos m) e) as [[mz ez] lz].
    unfold binary_round_aux.
    destruct (shr_fexp prec emax mz ez lz) as [mrs' e'].
    destruct (shr_fexp prec emax _ e' loc_Exact) as [mrs'' e''].
    destruct (shr_m mrs'') as [|q|q].
    + right. reflexivity.
    + destruct (e'' <=? emax - prec); right; reflexivity.
    + left. reflexivity.
Qed.

Lemma calc_mean_and_std_std_nan_or_nonneg (durations : list MicroSeconds) :
  std (calc_mean_and_std durations) = S754_nan
  \/ leb zero (std (calc_mean_and_std durations)) = true.
Proof. unfold calc_mean_and_std. cbn [std]. apply sqrt_nan_or_nonneg. Qed.

End MeanAndStd.

(** * The claims of the specification *)

(** C1 (what the code does at a failing input). Merging [request_a] (2 input
    tokens, 5 generated) with [request_b] (4 input tokens, 1 generated)
    succeeds; the generated-token counter of the result is the sum 5 + 1,
    but its input-token counter is 9, the left operand's generated count
    plus the right operand's input count, where the sum of the input
    counters is 6. *)
Theorem merge_num_input_tokens_at_requests :
  exists res, operator_plus request_a request_b = Ok res /\
    num_generated_tokens res
      = num_generated_tokens request_a + num_generated_tokens request_b /\
    num_input_tokens res
      = num_generated_tokens request_a + num_input_tokens request_b /\
    num_input_tokens res = 9 /\
    num_input_tokens request_a + num_input_tokens request_b = 6.
Proof.
  eexists. split; [vm_compute; reflexivity|]. repeat split.
Qed.

(** C2. With [n >= 1] token times and [n] positive batch sizes,
    [evaluate_statistics] with a start time returns, and in the object it
    leaves: [durations] has [n] entries, entry [0] is the first token time
    minus the start time divided by batch size [0], entry [i > 0] is token
    time [i] minus token time [i - 1] divided by batch size [i], and
    [num_generated_tokens] is the sum of the batch sizes (in 64-bit unsigned
    arithmetic, hence the sum itself when that fits). *)
Theorem evaluate_statistics_recomputes_durations
    (this : PerfMetrics) (start_time : TimePoint) :
  let tok_times := m_new_token_times (raw_metrics this) in
  let batch_sizes := m_batch_sizes (raw_metrics this) in
  (1 <= length tok_times)%nat ->
  length batch_sizes = length tok_times ->
  Forall (fun b => 0 < b < SIZE_MODULUS) batch_sizes ->
  exists this',
    evaluate_statistics (Some start_time) this = Ok this' /\
    length (m_durations (raw_metrics this')) = length tok_times /\
    (forall t b, tok_times !! 0%nat = Some t -> batch_sizes !! 0%nat = Some b ->
       m_durations (raw_metrics this') !! 0%nat
       = Some (div (to_MicroSeconds (time_diff t start_time)) (float_of_size_t b))) /\
    (forall (i : nat) t t' b, (0 < i)%nat ->
       tok_times !! i = Some t -> tok_times !! (i - 1)%nat = Some t' ->
       batch_sizes !! i = Some b ->
       m_durations (raw_metrics this') !! i
       = Some (div (to_MicroSeconds (time_diff t t')) (float_of_size_t b))) /\
    num_generated_tokens this' = wrap_size_t (batch_total batch_sizes) /\
    (batch_total batch_sizes < SIZE_MODULUS ->
       num_generated_tokens this' = batch_total batch_sizes).
Proof.
  destruct this as [lt a1 a2 a3 a4 a5 a6 ngt nit [g tk dtk ttf toks bs durs]].
  cbn [raw_metrics m_new_token_times m_batch_sizes]. intros Hn Hlen Hpos.
  destruct toks as [|tok_0 rest]; [simpl in Hn; lia|].
  eexists. split.
  { apply (evaluate_statistics_Some start_time _ tok_0 rest); [reflexivity|].
    cbn [raw_metrics m_batch_sizes]. lia. }
  rewrite refresh_statistics_raw.
  unfold recalculated.
  cbn [raw_metrics m_new_token_times m_batch_sizes m_durations update_raw
       with_raw_metrics raw_with_m_durations raw_with_m_times_to_first_token
       with_num_generated_tokens num_generated_tokens refresh_statistics
       with_tpot with_ttft with_generate_duration with_tokenization_duration
       with_detokenization_duration with_throughput].
  rewrite (take_ge bs (length (tok_0 :: rest))) by lia.
  split; [apply rolling_durations_length; lia|].
  split; [intros t b; apply rolling_durations_head|].
  split; [intros i t t' b; apply rolling_durations_lookup|].
  split; [reflexivity|].
  intros Hfit. apply wrap_size_t_small. split; [|exact Hfit].
  apply batch_total_nonneg. eapply Forall_impl; [exact Hpos|].
  cbn. intros b Hb. lia.
Qed.

(** The statement at [request_a] with start time 0: durations of 300 and
    500 microseconds and 5 generated tokens. *)
Lemma evaluate_statistics_recomputes_durations_witness :
  exists this',
    evaluate_statistics (Some 0) request_a = Ok this' /\
    m_durations (raw_metrics this') !! 0%nat = Some (of_Z 300) /\
    m_durations (raw_metrics this') !! 1%nat = Some (of_Z 500) /\
    num_generated_tokens this' = 5.
Proof.
  destruct (evaluate_statistics_recomputes_durations request_a 0)
    as (this' & Hev & _ & H0 & Hi & _ & Hsum).
  - cbn. lia.
  - reflexivity.
  - repeat constructor; vm_compute; reflexivity.
  - exists this'. split; [exact Hev|].
    split; [exact (H0 900000 3 eq_refl eq_refl)|].
    split; [exact (Hi 1%nat 1900000 900000 2 (Nat.lt_0_succ 0) eq_refl eq_refl eq_refl)|].
    apply Hsum. vm_compute. reflexivity.
Defined.

(** C3 (what the code does at a failing input). Three equal durations of
    10014 microseconds: the mean is the float nearest to 10.014, and the
    variance the code computes, the mean of the squares minus the square of
    the mean, is rounded below zero, so that the standard deviation is the
    square root of a negative number, a NaN, and [std >= 0] is false.  The
    same happens through [evaluate_statistics] on three token times that are
    10.014 ms apart. *)
Theorem calc_mean_and_std_nan_at_equal_durations :
  let durations := [of_Z 10014; of_Z 10014; of_Z 10014] in
  mean (calc_mean_and_std durations) = S754_finite false 10500440 (-20) /\
  std (calc_mean_and_std durations) = S754_nan /\
  leb zero (std (calc_mean_and_std durations)) = false /\
  exists this', evaluate_statistics (Some 0) steady_request = Ok this' /\
    m_durations (raw_metrics this') = durations /\
    std (tpot this') = S754_nan.
Proof.
  cbv zeta. split; [vm_compute; reflexivity|].
  split; [vm_compute; reflexivity|].
  split; [vm_compute; reflexivity|].
  eexists. split; [vm_compute; reflexivity|].
  split; vm_compute; reflexivity.
Qed.

(** C4. [evaluate_statistics] returns whenever no start time is given, or
    the first token time exists and every token time has a batch size; and
    after every call that returns, [tpot] is the reduction of the
    durations, [throughput.mean] is [1000 / tpot.mean] and [throughput.std]
    is [(tpot.std * 1000) / (tpot.mean * tpot.mean)]. *)
Theorem throughput_is_derived_from_tpot
    (start_time : option TimePoint) (this : PerfMetrics) :
  (start_time = None \/
   (1 <= length (m_new_token_times (raw_metrics this))
      <= length (m_batch_sizes (raw_metrics this)))%nat ->
   exists this', evaluate_statistics start_time this = Ok this') /\
  (forall this', evaluate_statistics start_time this = Ok this' ->
     tpot this' = calc_mean_and_std (m_durations (raw_metrics this')) /\
     mean (throughput this') = div thousand (mean (tpot this')) /\
     std (throughput this')
       = div (mul (std (tpot this')) thousand)
             (mul (mean (tpot this')) (mean (tpot this')))).
Proof.
  split.
  - destruct start_time as [sv|]; [|intros _; eexists; apply evaluate_statistics_None].
    intros [E|[Hn Hle]]; [discriminate|].
    destruct (m_new_token_times (raw_metrics this)) as [|tok_0 rest] eqn:Htok;
      [simpl in Hn; lia|].
    eexists. exact (evaluate_statistics_Some sv this tok_0 rest Htok Hle).
  - intros this' H.
    apply evaluate_statistics_Ok_inv in H as (mid & -> & _).
    repeat split.
Qed.

(** The statement at [request_a], evaluated without a start time. *)
Lemma throughput_is_derived_from_tpot_witness :
  evaluate_statistics None request_a = Ok (refresh_statistics request_a) /\
  mean (throughput (refresh_statistics request_a))
    = div thousand (mean (tpot (refresh_statistics request_a))) /\
  std (throughput (refresh_statistics request_a))
    = div (mul (std (tpot (refresh_statistics request_a))) thousand)
          (mul (mean (tpot (refresh_statistics request_a)))
               (mean (tpot (refresh_statistics request_a)))).
Proof.
  split; [reflexivity|].
  exact (proj2 (proj2 (throughput_is_derived_from_tpot None request_a)
                  (refresh_statistics request_a) eq_refl)).
Defined.

(** C5. The merge fails exactly when the load times of the operands differ
    (as floats compare), and then with the assertion's message; when they
    are equal it returns, and the load time of the result is the left
    operand's, which equals the right operand's. *)
Theorem merge_fails_iff_load_times_differ (a b : PerfMetrics) :
  ((exists e, operator_plus a b = Err e)
     <-> eqb (load_time a) (load_time b) = false) /\
  (eqb (load_time a) (load_time b) = false ->
     operator_plus a b = Err (AssertionFailed load_time_message)) /\
  (eqb (load_time a) (load_time b) = true ->
     exists res, operator_plus a b = Ok res /\
       load_time res = load_time a /\
       eqb (load_time res) (load_time b) = true).
Proof.
  rewrite operator_plus_unfold, (eqb_sym (load_time b) (load_time a)).
  destruct (eqb (load_time a) (load_time b)) eqn:E.
  - split; [|split].
    + split; [intros [e He]; discriminate|discriminate].
    + discriminate.
    + intros _. eexists. split; [reflexivity|]. split; [reflexivity|].
      exact E.
  - split; [|split].
    + split; [reflexivity|intros _; eexists; reflexivity].
    + reflexivity.
    + discriminate.
Qed.

(** [request_a + request_other] fails, [request_a + request_b] returns. *)
Lemma merge_fails_iff_load_times_differ_witness :
  operator_plus request_a request_other = Err (AssertionFailed load_time_message) /\
  exists res, operator_plus request_a request_b = Ok res /\
    load_time res = load_time request_a /\
    eqb (load_time res) (load_time request_b) = true.
Proof.
  split.
  - apply (proj1 (proj2 (merge_fails_iff_load_times_differ request_a request_other))).
    vm_compute. reflexivity.
  - apply (proj2 (proj2 (merge_fails_iff_load_times_differ request_a request_b))).
    vm_compute. reflexivity.
Defined.

(** C6 (counterexample). [request_a] and [request_b] have the same load
    time and their merge returns, but the token times of the result are not
    the token times of [request_a] followed by those of [request_b]: the
    token times are a raw sequence that the merge does not concatenate. *)
Lemma merge_new_token_times_not_concatenated :
  eqb (load_time request_a) (load_time request_b) = true /\
  exists res, operator_plus request_a request_b = Ok res /\
    m_new_token_times (raw_metrics res)
    <> m_new_token_times (raw_metrics request_a)
         ++ m_new_token_times (raw_metrics request_b).
Proof.
  split; [vm_compute; reflexivity|].
  eexists. split; [vm_compute; reflexivity|].
  vm_compute. discriminate.
Qed.

(** C6 (amended). For operands of equal load time the four merges return
    and [(a + b) + c] is the same object as [a + (b + c)], so all raw
    sequences, both counters and all derived statistics are identical.  In
    [a + b] the durations, first-token times, batch sizes and the
    tokenization, detokenization and generate durations are the left
    operand's followed by the right operand's, the token times are the left
    operand's alone, and the derived statistics are the reductions of the
    concatenated sequences. *)
Theorem merge_is_associative (a b c : PerfMetrics) :
  eqb (load_time a) (load_time b) = true ->
  eqb (load_time b) (load_time c) = true ->
  exists ab bc abc,
    operator_plus a b = Ok ab /\ operator_plus b c = Ok bc /\
    operator_plus ab c = Ok abc /\ operator_plus a bc = Ok abc /\
    m_durations (raw_metrics ab)
      = m_durations (raw_metrics a) ++ m_durations (raw_metrics b) /\
    m_times_to_first_token (raw_metrics ab)
      = m_times_to_first_token (raw_metrics a)
          ++ m_times_to_first_token (raw_metrics b) /\
    m_batch_sizes (raw_metrics ab)
      = m_batch_sizes (raw_metrics a) ++ m_batch_sizes (raw_metrics b) /\
    tokenization_durations (raw_metrics ab)
      = tokenization_durations (raw_metrics a)
          ++ tokenization_durations (raw_metrics b) /\
    detokenization_durations (raw_metrics ab)
      = detokenization_durations (raw_metrics a)
          ++ detokenization_durations (raw_metrics b) /\
    generate_durations (raw_metrics ab)
      = generate_durations (raw_metrics a) ++ generate_durations (raw_metrics b) /\
    m_new_token_times (raw_metrics ab) = m_new_token_times (raw_metrics a) /\
    tpot ab
      = calc_mean_and_std (m_durations (raw_metrics a) ++ m_durations (raw_metrics b)) /\
    ttft ab
      = calc_mean_and_std (m_times_to_first_token (raw_metrics a)
                             ++ m_times_to_first_token (raw_metrics b)) /\
    generate_duration ab
      = calc_mean_and_std (generate_durations (raw_metrics a)
                             ++ generate_durations (raw_metrics b)) /\
    tokenization_duration ab
      = calc_mean_and_std (tokenization_durations (raw_metrics a)
                             ++ tokenization_durations (raw_metrics b)) /\
    detokenization_duration ab
      = calc_mean_and_std (detokenization_durations (raw_metrics a)
                             ++ detokenization_durations (raw_metrics b)) /\
    throughput ab = throughput_of (tpot ab).
Proof.
  intros Hab Hbc.
  assert (Hac : eqb (load_time a) (load_time c) = true) by (eapply eqb_trans; eassumption).
  exists (refresh_statistics (concatenated a b)),
         (refresh_statistics (concatenated b c)),
         (refresh_statistics (concatenated (refresh_statistics (concatenated a b)) c)).
  split; [apply operator_plus_Ok; now rewrite eqb_sym|].
  split; [apply operator_plus_Ok; now rewrite eqb_sym|].
  split; [apply operator_plus_Ok; cbn [load_time refresh_statistics concatenated
            with_throughput with_detokenization_duration with_tokenization_duration
            with_generate_duration with_ttft with_tpot]; now rewrite eqb_sym|].
  split.
  { rewrite concatenated_assoc. apply operator_plus_Ok.
    cbn [load_time refresh_statistics concatenated
            with_throughput with_detokenization_duration with_tokenization_duration
            with_generate_duration with_ttft with_tpot]. now rewrite eqb_sym. }
  repeat split.
Qed.

(** The statement at [request_a], [request_b] and [request_c]. *)
Lemma merge_is_associative_witness :
  exists abc ab,
    (exists res, operator_plus request_a request_b = Ok res
                 /\ operator_plus res request_c = Ok abc) /\
    (exists res, operator_plus request_b request_c = Ok res
                 /\ operator_plus request_a res = Ok abc) /\
    operator_plus request_a request_b = Ok ab /\
    m_durations (raw_metrics ab) = [of_Z 300; of_Z 500; of_Z 2000] /\
    m_new_token_times (raw_metrics ab) = [900000; 1900000].
Proof.
  destruct (merge_is_associative request_a request_b request_c)
    as (ab & bc & abc & H1 & H2 & H3 & H4 & Hd & _ & _ & _ & _ & _ & Ht & _);
    [vm_compute; reflexivity | vm_compute; reflexivity |].
  exists abc, ab. repeat split; eauto.
Defined.

(** C7. Batch sizes [1, 1, 1] with token times exactly 10 ms apart, the
    first 10 ms after the start time: [tpot.mean] is 10.0 and
    [throughput.mean] is 100.0.  Batch sizes [5] with the one token time
    10 ms after the start time: [tpot.mean] is 2.0. *)
Theorem evaluate_statistics_ten_millisecond_gaps
    (this : PerfMetrics) (start_time : TimePoint) :
  (m_batch_sizes (raw_metrics this) = [1; 1; 1] ->
   m_new_token_times (raw_metrics this)
     = [start_time + 10000000; start_time + 20000000; start_time + 30000000] ->
   exists this', evaluate_statistics (Some start_time) this = Ok this' /\
     mean (tpot this') = of_Z 10 /\ mean (throughput this') = of_Z 100) /\
  (m_batch_sizes (raw_metrics this) = [5] ->
   m_new_token_times (raw_metrics this) = [start_time + 10000000] ->
   exists this', evaluate_statistics (Some start_time) this = Ok this' /\
     mean (tpot this') = of_Z 2).
Proof.
  assert (Hgap : forall x y, x - y = 10000000 -> time_diff x y = 10000000).
  { intros x y H. unfold time_diff. rewrite H. reflexivity. }
  split; intros Hb Ht.
  - eexists. split.
    { eapply evaluate_statistics_Some; [exact Ht|]. rewrite Hb. cbn. lia. }
    rewrite refresh_statistics_unfold. cbn [tpot throughput throughput_of mean].
    unfold recalculated.
    cbn [raw_metrics m_durations update_raw with_raw_metrics with_num_generated_tokens
         raw_with_m_durations].
    rewrite Ht, Hb. cbn [rolling_durations].
    rewrite !Hgap by lia. split; vm_compute; reflexivity.
  - eexists. split.
    { eapply evaluate_statistics_Some; [exact Ht|]. rewrite Hb. cbn. lia. }
    rewrite refresh_statistics_unfold. cbn [tpot throughput throughput_of mean].
    unfold recalculated.
    cbn [raw_metrics m_durations update_raw with_raw_metrics with_num_generated_tokens
         raw_with_m_durations].
    rewrite Ht, Hb. cbn [rolling_durations].
    rewrite !Hgap by lia. vm_compute; reflexivity.
Qed.

(** The statement at start time 12345. *)
Lemma evaluate_statistics_ten_millisecond_gaps_witness :
  (exists this', evaluate_statistics (Some 12345) (three_steps 12345) = Ok this' /\
     mean (tpot this') = of_Z 10 /\ mean (throughput this') = of_Z 100) /\
  (exists this', evaluate_statistics (Some 12345) (batch_of_five 12345) = Ok this' /\
     mean (tpot this') = of_Z 2).
Proof.
  split.
  - exact (proj1 (evaluate_statistics_ten_millisecond_gaps (three_steps 12345) 12345)
             eq_refl eq_refl).
  - exact (proj2 (evaluate_statistics_ten_millisecond_gaps (batch_of_five 12345) 12345)
             eq_refl eq_refl).
Defined.

(** C8. With at least one token time, a call of [evaluate_statistics] with a
    start time returns as soon as every token time has a batch size, and
    after every call that returns, the first-token times are the single
    duration [new_token_times[0] - start_time], converted to microseconds
    and not divided by any batch size. *)
Theorem time_to_first_token_is_not_divided
    (this : PerfMetrics) (start_time tok_0 : TimePoint) (rest : list TimePoint) :
  m_new_token_times (raw_metrics this) = tok_0 :: rest ->
  ((length (tok_0 :: rest) <= length (m_batch_sizes (raw_metrics this)))%nat ->
   exists this', evaluate_statistics (Some start_time) this = Ok this') /\
  (forall this', evaluate_statistics (Some start_time) this = Ok this' ->
     m_times_to_first_token (raw_metrics this')
     = [to_MicroSeconds (time_diff tok_0 start_time)]).
Proof.
  intros Htok. split.
  - intros Hle. eexists. exact (evaluate_statistics_Some _ this tok_0 rest Htok Hle).
  - intros this' H. apply evaluate_statistics_Ok_inv in H as (mid & -> & Hmid).
    rewrite refresh_statistics_raw.
    apply recalculate_durations_frame in Hmid as (t & Ht & Httft & _).
    rewrite Htok in Ht. injection Ht as <-. exact Httft.
Qed.

(** A first batch of five tokens after 10 ms: the first-token time is
    10000 microseconds, the per-token duration 2000. *)
Lemma time_to_first_token_is_not_divided_witness :
  exists this', evaluate_statistics (Some 0) (batch_of_five 0) = Ok this' /\
    m_batch_sizes (raw_metrics this') = [5] /\
    m_times_to_first_token (raw_metrics this') = [of_Z 10000] /\
    m_durations (raw_metrics this') = [of_Z 2000].
Proof.
  destruct (time_to_first_token_is_not_divided (batch_of_five 0) 0 10000000 [] eq_refl)
    as [Hret Hval].
  destruct Hret as [this' Hev]; [cbn; lia|].
  exists this'. split; [exact Hev|].
  pose proof (Hval this' Hev) as Httft.
  split; [|split; [exact Httft|]];
    vm_compute in Hev; injection Hev as <-; reflexivity.
Defined.

(** C9. With both operands in the store and of equal load time, [a + b]
    returns the value the function on values computes and leaves the store,
    hence both operands, exactly as it found it, also when both references
    name one object; [a += b] leaves the store in which [a] holds the value
    of [a + b] and every other object is unchanged. *)
Theorem merge_leaves_operands_unchanged
    (h : gmap nat PerfMetrics) (this right : nat) (a b : PerfMetrics) :
  h !! this = Some a -> h !! right = Some b ->
  eqb (load_time a) (load_time b) = true ->
  exists res,
    operator_plus a b = Ok res /\
    Obj.operator_plus this right h = Ok (res, h) /\
    Obj.operator_plus_assign this right h = Ok (tt, <[this:=res]> h) /\
    (forall q, q <> this -> (<[this:=res]> h) !! q = h !! q).
Proof.
  intros Ha Hb Heq.
  assert (Hplus : operator_plus a b = Ok (refresh_statistics (concatenated a b)))
    by (apply operator_plus_Ok; now rewrite eqb_sym).
  exists (refresh_statistics (concatenated a b)).
  split; [exact Hplus|]. split; [|split].
  - rewrite (operator_plus_run this right h a b Ha Hb), Hplus. reflexivity.
  - rewrite (operator_plus_assign_run this right h a b Ha Hb).
    unfold operator_plus_assign. rewrite Hplus. reflexivity.
  - intros q Hq. now apply lookup_insert_ne.
Qed.

(** [a + b] and [a += b] on the store [two_requests], and [a + a]. *)
Lemma merge_leaves_operands_unchanged_witness :
  (exists res, operator_plus request_a request_b = Ok res /\
     Obj.operator_plus 0%nat 1%nat two_requests = Ok (res, two_requests) /\
     Obj.operator_plus_assign 0%nat 1%nat two_requests
       = Ok (tt, <[0%nat:=res]> two_requests)) /\
  (exists res, operator_plus request_a request_a = Ok res /\
     Obj.operator_plus 0%nat 0%nat two_requests = Ok (res, two_requests)).
Proof.
  split.
  - destruct (merge_leaves_operands_unchanged two_requests 0%nat 1%nat
                request_a request_b)
      as (res & H1 & H2 & H3 & _);
      [reflexivity | reflexivity | vm_compute; reflexivity |].
    exists res. auto.
  - destruct (merge_leaves_operands_unchanged two_requests 0%nat 0%nat
                request_a request_a)
      as (res & H1 & H2 & _);
      [reflexivity | reflexivity | vm_compute; reflexivity |].
    exists res. auto.
Defined.

(** C10. The token times of a merge are the left operand's: the result
    does not depend on the token times of the right operand, and a later
    [evaluate_statistics] with a start time on the result keeps the left
    operand's token times and produces one duration for each of them, from
    these token times and the first of the concatenated batch sizes. *)
Theorem merge_drops_right_new_token_times (a b res : PerfMetrics) :
  operator_plus a b = Ok res ->
  m_new_token_times (raw_metrics res) = m_new_token_times (raw_metrics a) /\
  (forall times,
     operator_plus a (update_raw (raw_with_m_new_token_times times) b) = Ok res) /\
  (forall start_time res',
     evaluate_statistics (Some start_time) res = Ok res' ->
     m_new_token_times (raw_metrics res') = m_new_token_times (raw_metrics a) /\
     length (m_durations (raw_metrics res'))
       = length (m_new_token_times (raw_metrics a))) /\
  (forall start_time,
     (1 <= length (m_new_token_times (raw_metrics a))
        <= length (m_batch_sizes (raw_metrics a) ++ m_batch_sizes (raw_metrics b)))%nat ->
     exists res',
       evaluate_statistics (Some start_time) res = Ok res' /\
       m_durations (raw_metrics res')
       = rolling_durations start_time (m_new_token_times (raw_metrics a))
           (m_batch_sizes (raw_metrics a) ++ m_batch_sizes (raw_metrics b))).
Proof.
  intros H. apply operator_plus_Ok_inv in H as [Heq ->].
  split; [reflexivity|]. split; [|split].
  - intros times. rewrite operator_plus_unfold.
    destruct b as [? ? ? ? ? ? ? ? ? []].
    cbn [load_time update_raw with_raw_metrics] in Heq |- *.
    rewrite Heq. reflexivity.
  - intros start_time res' Hev.
    apply evaluate_statistics_Ok_inv in Hev as (mid & -> & Hmid).
    rewrite refresh_statistics_raw.
    apply recalculate_durations_frame in Hmid as (t & _ & _ & Htok & _ & Hlen & _).
    rewrite Htok, Hlen. split; reflexivity.
  - intros start_time [Hn Hle].
    destruct (m_new_token_times (raw_metrics a)) as [|tok_0 rest] eqn:Htok;
      [simpl in Hn; lia|].
    eexists. split.
    + apply (evaluate_statistics_Some start_time _ tok_0 rest).
      * rewrite refresh_statistics_raw. cbn [concatenated raw_metrics m_new_token_times].
        exact Htok.
      * rewrite refresh_statistics_raw. cbn [concatenated raw_metrics m_batch_sizes].
        exact Hle.
    + rewrite refresh_statistics_raw. unfold recalculated.
      cbn [raw_metrics m_durations update_raw with_raw_metrics
           with_num_generated_tokens raw_with_m_durations].
      rewrite !refresh_statistics_raw.
      cbn [concatenated raw_metrics m_new_token_times m_batch_sizes].
      rewrite Htok. reflexivity.
Qed.

(** The statement at [request_a + request_b]. *)
Lemma merge_drops_right_new_token_times_witness :
  exists res, operator_plus request_a request_b = Ok res /\
    m_new_token_times (raw_metrics res) = [900000; 1900000] /\
    m_batch_sizes (raw_metrics res) = [3; 2; 1] /\
    operator_plus request_a
      (update_raw (raw_with_m_new_token_times [7; 8; 9]) request_b) = Ok res.
Proof.
  assert (H : operator_plus request_a request_b
              = Ok (refresh_statistics (concatenated request_a request_b)))
    by (apply operator_plus_Ok; vm_compute; reflexivity).
  destruct (merge_drops_right_new_token_times request_a request_b _ H)
    as (Htok & Hindep & _).
  eexists. split; [exact H|]. split; [exact Htok|]. split; [reflexivity|].
  apply Hindep.
Defined.


(** * Further properties of the code *)

(** ** Signs and NaNs of binary32 results *)

Section FloatClasses.

(** A rounded result carries the sign it was given, or is a NaN. *)
Lemma binary_round_aux_sign (sx : bool) (mx ex : Z) (lx : location) :
  match binary_round_aux prec emax sx mx ex lx with
  | S754_zero s | S754_infinity s | S754_finite s _ _ => s = sx
  | S754_nan => True
  end.
Proof.
  unfold binary_round_aux.
  destruct (shr_fexp prec emax mx ex lx) as [mrs' e'].
  destruct (shr_fexp prec emax _ e' loc_Exact) as [mrs'' e''].
  destruct (shr_m mrs'') as [|q|q]; [reflexivity| |exact I].
  destruct (e'' <=? emax - prec); reflexivity.
Qed.

Lemma binary_round_sign (sx : bool) (mx : positive) (ex : Z) :
  match binary_round prec emax sx mx ex with
  | S754_zero s | S754_infinity s | S754_finite s _ _ => s = sx
  | S754_nan => True
  end.
Proof.
  unfold binary_round.
  destruct (shl_align mx ex _) as [mz ez]. apply binary_round_aux_sign.
Qed.

Lemma nan_or_nonneg_of_sign (x : float32) :
  match x with
  | S754_zero s | S754_infinity s | S754_finite s _ _ => s = false
  | S754_nan => True
  end -> nan_or_nonneg x.
Proof.
  destruct x as [s|s| |s m e]; intros H; try subst s;
    first [left; reflexivity | right; reflexivity].
Qed.

Lemma nan_or_nonneg_inv (x : float32) :
  nan_or_nonneg x ->
  x = S754_nan \/ (exists s, x = S754_zero s) \/ x = S754_infinity false
  \/ exists m e, x = S754_finite false m e.
Proof.
  intros [->|H]; [now left|].
  destruct x as [s|s| |s m e]; try destruct s; try discriminate; eauto 6.
Qed.

Lemma binary_normalize_nonneg (m e : Z) :
  0 <= m -> nan_or_nonneg (binary_normalize prec emax m e false).
Proof.
  intros Hm. unfold binary_normalize.
  destruct m as [|p|p]; [right; reflexivity| |lia].
  apply nan_or_nonneg_of_sign. apply binary_round_sign.
Qed.

(** An integer that is not negative converts to a float that is not. *)
Lemma of_Z_nonneg (z : Z) : 0 <= z -> nan_or_nonneg (of_Z z).
Proof. apply binary_normalize_nonneg. Qed.

(** The quotient of a non-negative float by a non-negative divisor that is
    not [-0] is non-negative or a NaN. *)
Lemma div_nonneg (x y : float32) :
  nan_or_nonneg x -> nan_or_nonneg y -> y <> S754_zero true ->
  nan_or_nonneg (div x y).
Proof.
  intros Hx Hy Hy0.
  apply nan_or_nonneg_inv in Hx as [->|[[sx ->]|[->|(mx & ex & ->)]]];
    apply nan_or_nonneg_inv in Hy as [->|[[sy ->]|[->|(my & ey & ->)]]];
    try (left; reflexivity);
    try (destruct sy; [congruence|]);
    try (destruct sx); try (right; reflexivity).
  apply nan_or_nonneg_of_sign. unfold div, SFdiv.
  destruct (SFdiv_core_binary prec emax (Z.pos mx) ex (Z.pos my) ey) as [[mz ez] lz].
  apply (binary_round_aux_sign false mz ez lz).
Qed.

Lemma add_nonneg (x y : float32) :
  nan_or_nonneg x -> nan_or_nonneg y -> nan_or_nonneg (add x y).
Proof.
  intros Hx Hy.
  apply nan_or_nonneg_inv in Hx as [->|[[sx ->]|[->|(mx & ex & ->)]]];
    apply nan_or_nonneg_inv in Hy as [->|[[sy ->]|[->|(my & ey & ->)]]];
    try (left; reflexivity);
    try (destruct sx); try (destruct sy); try (right; reflexivity).
  unfold add, SFadd. cbn [cond_Zopp].
  apply binary_normalize_nonneg. lia.
Qed.

End FloatClasses.

(** ** [calc_mean_and_std]: signs, NaNs and empty input *)

Section Reduction.

Lemma add_nan_r (x : float32) : add x S754_nan = S754_nan.
Proof. destruct x; reflexivity. Qed.

Lemma fold_left_nan (f : float32 -> MicroSeconds -> float32) :
  (forall d, f S754_nan d = S754_nan) ->
  forall durations, fold_left f durations S754_nan = S754_nan.
Proof.
  intros Hf durations. induction durations as [|d ds IH]; [reflexivity|].
  cbn [fold_left]. now rewrite Hf.
Qed.

Lemma fold_left_poisoned (f : float32 -> MicroSeconds -> float32) :
  (forall d, f S754_nan d = S754_nan) ->
  (forall acc, f acc S754_nan = S754_nan) ->
  forall durations acc, S754_nan ∈ durations -> fold_left f durations acc = S754_nan.
Proof.
  intros Hl Hr durations. induction durations as [|d ds IH]; intros acc Hin.
  - inversion Hin.
  - cbn [fold_left]. apply elem_of_cons in Hin as [<-|Hin].
    + rewrite Hr. now apply fold_left_nan.
    + now apply IH.
Qed.

Lemma fold_left_nonneg (f : float32 -> MicroSeconds -> float32) :
  (forall acc d, nan_or_nonneg acc -> nan_or_nonneg d -> nan_or_nonneg (f acc d)) ->
  forall durations acc,
  Forall nan_or_nonneg durations -> nan_or_nonneg acc ->
  nan_or_nonneg (fold_left f durations acc).
Proof.
  intros Hf durations. induction durations as [|d ds IH]; intros acc Hall Hacc;
    [exact Hacc|].
  cbn [fold_left]. inversion Hall; subst. apply IH; [assumption|]. now apply Hf.
Qed.

Lemma thousand_nonneg : nan_or_nonneg thousand /\ thousand <> S754_zero true.
Proof. split; [right; reflexivity | discriminate]. Qed.

Lemma of_Z_not_negative_zero (z : Z) : 0 <= z -> of_Z z <> S754_zero true.
Proof.
  intros Hz. unfold of_Z, binary_normalize. destruct z as [|p|p]; [discriminate| |lia].
  pose proof (binary_round_sign false p 0) as H.
  destruct (binary_round prec emax false p 0); try discriminate.
  intros [= ->]. discriminate.
Qed.

End Reduction.

(** X1. The reduction never returns a negative number where none went in:
    the standard deviation is a NaN or [>= 0] for every input, and so is the
    mean when every duration is a NaN or [>= 0]. *)
Theorem calc_mean_and_std_never_negative (durations : list MicroSeconds) :
  nan_or_nonneg (std (calc_mean_and_std durations)) /\
  (Forall nan_or_nonneg durations -> nan_or_nonneg (mean (calc_mean_and_std durations))).
Proof.
  split; [apply calc_mean_and_std_std_nan_or_nonneg|].
  intros Hall. unfold calc_mean_and_std. cbn [mean].
  apply div_nonneg.
  - apply fold_left_nonneg; [|exact Hall|right; reflexivity].
    intros acc d Hacc Hd. apply add_nonneg; [exact Hacc|].
    apply div_nonneg; [exact Hd|apply thousand_nonneg..].
  - apply of_Z_nonneg. lia.
  - apply of_Z_not_negative_zero. lia.
Qed.

(** The statement at the three equal durations for which the standard
    deviation is a NaN, and at durations of 300 and 500 microseconds. *)
Lemma calc_mean_and_std_never_negative_witness :
  nan_or_nonneg (std (calc_mean_and_std [of_Z 10014; of_Z 10014; of_Z 10014])) /\
  nan_or_nonneg (mean (calc_mean_and_std [of_Z 300; of_Z 500])).
Proof.
  split.
  - exact (proj1 (calc_mean_and_std_never_negative _)).
  - apply (proj2 (calc_mean_and_std_never_negative [of_Z 300; of_Z 500])).
    repeat constructor; right; reflexivity.
Defined.

(** X2. One duration that is a NaN makes both the mean and the standard
    deviation a NaN, wherever it stands in the sequence. *)
Theorem calc_mean_and_std_nan_poisons (durations : list MicroSeconds) :
  S754_nan ∈ durations ->
  calc_mean_and_std durations = {| mean := S754_nan; std := S754_nan |}.
Proof.
  intros Hin. unfold calc_mean_and_std.
  rewrite (fold_left_poisoned (fun acc duration => add acc (div duration thousand)))
    by (reflexivity || (intros acc; apply add_nan_r) || exact Hin).
  rewrite (fold_left_poisoned
             (fun acc duration => let d := div duration thousand in add acc (mul d d)))
    by (reflexivity || (intros acc; apply add_nan_r) || exact Hin).
  reflexivity.
Qed.

Lemma calc_mean_and_std_nan_poisons_witness :
  calc_mean_and_std [of_Z 300; S754_nan; of_Z 500]
  = {| mean := S754_nan; std := S754_nan |}.
Proof.
  apply calc_mean_and_std_nan_poisons. apply list_elem_of_In. right. left. reflexivity.
Defined.

(** ** [evaluate_statistics]: bounds, what it keeps and what it discards *)

Section EvaluateStatisticsMore.

Lemma bind_Err_inv {A B : Type} (m : result A) (k : A -> result B) (e : error) :
  (m ≫= k) = Err e -> m = Err e \/ exists a, m = Ok a /\ k a = Err e.
Proof. destruct m as [a|e']; cbn; [eauto|intros [= ->]; now left]. Qed.

Lemma vec_at_Err {A : Type} (v : list A) (i : nat) (e : error) :
  vec_at v i = Err e -> e = OutOfRange.
Proof. unfold vec_at. destruct (v !! i); congruence. Qed.

Lemma vec_set_Err {A : Type} (v : list A) (i : nat) (x : A) (e : error) :
  vec_set v i x = Err e -> e = OutOfRange.
Proof. unfold vec_set. destruct (decide _); congruence. Qed.

(** The only failure of the loop is an index out of range. *)
Lemma durations_step_Err i st e :
  durations_step i st = Err e -> e = OutOfRange.
Proof.
  destruct st as [this sv]. unfold durations_step. intros H.
  repeat match type of H with
         | (_ ≫= _) = Err _ =>
             apply bind_Err_inv in H as [H|(? & _ & H)];
             [first [now apply vec_at_Err in H | now apply vec_set_Err in H]|]
         end.
  discriminate.
Qed.

Lemma for_range_Err count :
  forall first st e,
  for_range durations_step count first st = Err e -> e = OutOfRange.
Proof.
  induction count as [|count IH]; intros first st e H; [discriminate|].
  cbn [for_range] in H. apply bind_Err_inv in H as [H|(st' & _ & H)].
  - now apply durations_step_Err in H.
  - now apply IH in H.
Qed.

Lemma evaluate_statistics_Err start this e :
  evaluate_statistics start this = Err e -> e = OutOfRange.
Proof.
  unfold evaluate_statistics. intros H.
  apply bind_Err_inv in H as [H|(? & _ & H)]; [|discriminate].
  destruct start as [sv|]; [|discriminate].
  unfold recalculate_durations in H.
  apply bind_Err_inv in H as [H|(? & _ & H)]; [now apply vec_at_Err in H|].
  apply bind_Err_inv in H as [H|(? & _ & H)]; [|discriminate].
  now apply for_range_Err in H.
Qed.

(** An iteration that returns has found a batch size at its index. *)
Lemma durations_step_in_range i this sv st' :
  durations_step i (this, sv) = Ok st' ->
  (i < length (m_batch_sizes (raw_metrics this)))%nat.
Proof.
  unfold durations_step. intros H.
  apply bind_Ok_inv in H as (tok_i & _ & H).
  apply bind_Ok_inv in H as (durs & Hd1 & H).
  apply bind_Ok_inv in H as (d_i & _ & H).
  apply bind_Ok_inv in H as (batch_i & Hb & _).
  apply vec_at_Ok in Hb. apply lookup_lt_Some in Hb.
  destruct this as [? ? ? ? ? ? ? ? ? []]. exact Hb.
Qed.

Lemma for_range_in_range count :
  forall first this sv st',
  for_range durations_step count first (this, sv) = Ok st' ->
  (0 < count)%nat ->
  (first + count <= length (m_batch_sizes (raw_metrics this)))%nat.
Proof.
  induction count as [|count IH]; intros first this sv st' H Hpos; [lia|].
  cbn [for_range] in H. apply bind_Ok_inv in H as ([this1 sv1] & H1 & H).
  pose proof (durations_step_in_range _ _ _ _ H1) as Hlt.
  destruct count as [|count]; [lia|].
  apply durations_step_frame in H1.
  apply IH in H; [|lia].
  destruct H1 as (_ & _ & _ & _ & _ & _ & _ & _ & _ & _ & _ & _ & _ & Hbs & _).
  rewrite Hbs in H. lia.
Qed.

(** [recalculate_durations] returns only within bounds. *)
Lemma recalculate_durations_Ok_inv sv this mid :
  recalculate_durations sv this = Ok mid ->
  exists tok_0 rest,
    m_new_token_times (raw_metrics this) = tok_0 :: rest /\
    (length (tok_0 :: rest) <= length (m_batch_sizes (raw_metrics this)))%nat /\
    mid = recalculated sv tok_0 this.
Proof.
  intros H. pose proof H as H'. unfold recalculate_durations in H'.
  apply bind_Ok_inv in H' as (tok_0 & H0 & H').
  apply bind_Ok_inv in H' as (st & Hloop & _).
  apply vec_at_Ok in H0.
  destruct (m_new_token_times (raw_metrics this)) as [|t rest] eqn:Htok;
    [discriminate|].
  injection H0 as ->.
  apply for_range_in_range in Hloop; [|cbn; lia].
  destruct this as [? ? ? ? ? ? ? ? ? []]. cbn in Hloop, Htok |- *.
  exists tok_0, rest. split; [reflexivity|]. split; [lia|].
  subst.
  erewrite (recalculate_durations_Ok sv _ tok_0 rest) in H;
    [now injection H|reflexivity|cbn; lia].
Qed.

Lemma refresh_statistics_idempotent this :
  refresh_statistics (refresh_statistics this) = refresh_statistics this.
Proof. reflexivity. Qed.

Lemma recalculated_refresh_recalculated sv tok_0 this :
  refresh_statistics (recalculated sv tok_0 (refresh_statistics (recalculated sv tok_0 this)))
  = refresh_statistics (recalculated sv tok_0 this).
Proof. destruct this as [? ? ? ? ? ? ? ? ? []]. reflexivity. Qed.

Lemma recalculated_same_timeline sv tok_0 p q :
  same_timeline p q ->
  refresh_statistics (recalculated sv tok_0 p)
  = refresh_statistics (recalculated sv tok_0 q).
Proof.
  destruct p as [? ? ? ? ? ? ? ? ? []], q as [? ? ? ? ? ? ? ? ? []].
  unfold same_timeline. cbn. intros (-> & -> & -> & -> & -> & -> & ->). reflexivity.
Qed.

End EvaluateStatisticsMore.

Section Bounds.

(** Outside the bounds, [evaluate_statistics] with a start time fails. *)
Lemma evaluate_statistics_out_of_bounds (start_time : TimePoint) (this : PerfMetrics) :
  ~ (1 <= length (m_new_token_times (raw_metrics this))
       <= length (m_batch_sizes (raw_metrics this)))%nat ->
  evaluate_statistics (Some start_time) this = Err OutOfRange.
Proof.
  intros Hnot. destruct (evaluate_statistics (Some start_time) this) as [this'|e] eqn:H.
  - exfalso. apply Hnot.
    apply evaluate_statistics_Ok_inv in H as (mid & _ & Hmid).
    apply recalculate_durations_Ok_inv in Hmid as (tok_0 & rest & -> & Hle & _).
    cbn [length] in *. lia.
  - f_equal. now apply evaluate_statistics_Err in H.
Qed.

End Bounds.

(** X3. With a start time, [evaluate_statistics] reads [tok_times[0]] and a
    batch size for every token time: it returns exactly when there is at
    least one token time and at least as many batch sizes as token times,
    and otherwise an index leaves its vector. *)
Theorem evaluate_statistics_returns_iff_in_bounds
    (start_time : TimePoint) (this : PerfMetrics) :
  let n := length (m_new_token_times (raw_metrics this)) in
  let k := length (m_batch_sizes (raw_metrics this)) in
  ((1 <= n <= k)%nat ->
     exists this', evaluate_statistics (Some start_time) this = Ok this') /\
  (~ (1 <= n <= k)%nat ->
     evaluate_statistics (Some start_time) this = Err OutOfRange).
Proof.
  cbv zeta. split.
  - intros [Hn Hk].
    destruct (m_new_token_times (raw_metrics this)) as [|tok_0 rest] eqn:Htok;
      [simpl in Hn; lia|].
    eexists. exact (evaluate_statistics_Some start_time this tok_0 rest Htok Hk).
  - apply evaluate_statistics_out_of_bounds.
Qed.

(** Within bounds at [request_a]; no token time, and a batch size too few. *)
Lemma evaluate_statistics_returns_iff_in_bounds_witness :
  (exists this', evaluate_statistics (Some 0) request_a = Ok this') /\
  evaluate_statistics (Some 0) (sample 100 0 0 [] [] [] []) = Err OutOfRange /\
  evaluate_statistics (Some 0) (sample 100 0 0 [900000; 1900000] [3] [] [])
    = Err OutOfRange.
Proof.
  split; [|split].
  - apply (proj1 (evaluate_statistics_returns_iff_in_bounds 0 request_a)).
    cbn. lia.
  - apply (proj2 (evaluate_statistics_returns_iff_in_bounds 0 _)). cbn. lia.
  - apply (proj2 (evaluate_statistics_returns_iff_in_bounds 0 _)). cbn. lia.
Defined.

(** X4. [evaluate_statistics] is idempotent: on the object a call has left,
    a second call with the same argument returns and changes nothing. *)
Theorem evaluate_statistics_idempotent
    (start_time : option TimePoint) (this this' : PerfMetrics) :
  evaluate_statistics start_time this = Ok this' ->
  evaluate_statistics start_time this' = Ok this'.
Proof.
  intros H. apply evaluate_statistics_Ok_inv in H as (mid & -> & Hmid).
  destruct start_time as [sv|].
  - apply recalculate_durations_Ok_inv in Hmid as (tok_0 & rest & Htok & Hle & ->).
    rewrite (evaluate_statistics_Some sv _ tok_0 rest).
    + now rewrite recalculated_refresh_recalculated.
    + destruct this as [? ? ? ? ? ? ? ? ? []]. exact Htok.
    + destruct this as [? ? ? ? ? ? ? ? ? []]. exact Hle.
  - subst mid. rewrite evaluate_statistics_None.
    now rewrite refresh_statistics_idempotent.
Qed.

Lemma evaluate_statistics_idempotent_witness :
  exists this', evaluate_statistics (Some 0) request_a_stale = Ok this' /\
    evaluate_statistics (Some 0) this' = Ok this'.
Proof.
  eexists. split; [vm_compute; reflexivity|].
  apply (evaluate_statistics_idempotent (Some 0) request_a_stale).
  vm_compute. reflexivity.
Defined.

(** X5. What [evaluate_statistics] keeps.  Every call that returns leaves the
    load time, the input-token counter, the token times, the batch sizes and
    the tokenization, detokenization and generate durations as they were.
    Without a start time it also leaves the durations, the first-token times
    and the generated-token counter; with one, it leaves as many durations
    as there are token times and a single first-token time. *)
Theorem evaluate_statistics_keeps
    (start_time : option TimePoint) (this this' : PerfMetrics) :
  evaluate_statistics start_time this = Ok this' ->
  same_timeline this this' /\
  (start_time = None -> same_measurements this this') /\
  (start_time <> None ->
     length (m_durations (raw_metrics this'))
       = length (m_new_token_times (raw_metrics this)) /\
     length (m_times_to_first_token (raw_metrics this')) = 1%nat).
Proof.
  intros H. apply evaluate_statistics_Ok_inv in H as (mid & -> & Hmid).
  destruct start_time as [sv|].
  - apply recalculate_durations_Ok_inv in Hmid as (tok_0 & rest & Htok & Hle & ->).
    destruct this as [? ? ? ? ? ? ? ? ? []].
    cbn [raw_metrics m_new_token_times m_batch_sizes] in Htok, Hle. subst.
    split; [|split].
    + unfold same_timeline. cbn. tauto.
    + discriminate.
    + intros _. split; [|reflexivity].
      rewrite refresh_statistics_raw. unfold recalculated.
      cbn [raw_metrics m_durations m_new_token_times m_batch_sizes update_raw
           with_raw_metrics raw_with_m_durations raw_with_m_times_to_first_token
           with_num_generated_tokens].
      apply rolling_durations_length. exact Hle.
  - subst mid. split; [|split].
    + unfold same_timeline. cbn. tauto.
    + intros _. unfold same_measurements. cbn. tauto.
    + congruence.
Qed.

Lemma evaluate_statistics_keeps_witness :
  exists this', evaluate_statistics (Some 0) request_a_stale = Ok this' /\
    same_timeline request_a_stale this' /\
    length (m_durations (raw_metrics this')) = 2%nat.
Proof.
  assert (H : evaluate_statistics (Some 0) request_a_stale
              = Ok (refresh_statistics (recalculated 0 900000 request_a_stale)))
    by (vm_compute; reflexivity).
  destruct (evaluate_statistics_keeps _ _ _ H) as (Hsame & _ & Hlen).
  eexists. split; [exact H|]. split; [exact Hsame|].
  apply Hlen. discriminate.
Defined.

(** X6. What [evaluate_statistics] with a start time discards.  The call
    reads nothing of the previous durations, first-token times,
    generated-token counter and statistics: two objects that agree on the
    rest give the same outcome. *)
Theorem evaluate_statistics_discards_stale
    (start_time : TimePoint) (p q : PerfMetrics) :
  same_timeline p q ->
  evaluate_statistics (Some start_time) p = evaluate_statistics (Some start_time) q.
Proof.
  intros Hsame.
  pose proof Hsame as (_ & _ & Htok & Hbs & _).
  pose proof (evaluate_statistics_out_of_bounds start_time p) as Hp.
  pose proof (evaluate_statistics_out_of_bounds start_time q) as Hq.
  destruct (decide (1 <= length (m_new_token_times (raw_metrics p))
                      <= length (m_batch_sizes (raw_metrics p)))%nat) as [Hin|Hout].
  - destruct Hin as [Hn Hk].
    destruct (m_new_token_times (raw_metrics p)) as [|tok_0 rest] eqn:Ep;
      [simpl in Hn; lia|].
    rewrite (evaluate_statistics_Some start_time p tok_0 rest Ep Hk).
    rewrite (evaluate_statistics_Some start_time q tok_0 rest);
      [|congruence|rewrite <- Hbs; exact Hk].
    f_equal. now apply recalculated_same_timeline.
  - rewrite (Hp Hout). rewrite Hq; [reflexivity|].
    now rewrite <- Htok, <- Hbs.
Qed.

Lemma evaluate_statistics_discards_stale_witness :
  evaluate_statistics (Some 0) request_a_stale = evaluate_statistics (Some 0) request_a.
Proof.
  apply evaluate_statistics_discards_stale.
  unfold same_timeline. repeat split.
Defined.

(** X7. A statistic over an empty sequence is a pair of NaNs: after every
    call that returns, an empty raw sequence leaves its mean and standard
    deviation NaN, and empty durations leave the throughput NaN as well. *)
Theorem evaluate_statistics_empty_is_nan
    (start_time : option TimePoint) (this this' : PerfMetrics) :
  let nan_pair := {| mean := S754_nan; std := S754_nan |} in
  evaluate_statistics start_time this = Ok this' ->
  (m_durations (raw_metrics this') = [] ->
     tpot this' = nan_pair /\ throughput this' = nan_pair) /\
  (m_times_to_first_token (raw_metrics this') = [] -> ttft this' = nan_pair) /\
  (generate_durations (raw_metrics this') = [] -> generate_duration this' = nan_pair) /\
  (tokenization_durations (raw_metrics this') = [] ->
     tokenization_duration this' = nan_pair) /\
  (detokenization_durations (raw_metrics this') = [] ->
     detokenization_duration this' = nan_pair).
Proof.
  cbv zeta. intros H. apply evaluate_statistics_Ok_inv in H as (mid & -> & _).
  rewrite refresh_statistics_raw, refresh_statistics_unfold.
  cbn [tpot ttft throughput generate_duration tokenization_duration
       detokenization_duration].
  split; [intros ->; split; reflexivity|].
  repeat (split; [intros ->; reflexivity|]).
  intros ->; reflexivity.
Qed.

Lemma evaluate_statistics_empty_is_nan_witness :
  exists this',
    evaluate_statistics None (sample 100 0 0 [] [] [] [900]) = Ok this' /\
    tpot this' = {| mean := S754_nan; std := S754_nan |} /\
    throughput this' = {| mean := S754_nan; std := S754_nan |}.
Proof.
  eexists. split; [reflexivity|].
  apply (proj1 (evaluate_statistics_empty_is_nan None
                  (sample 100 0 0 [] [] [] [900]) _ eq_refl)).
  reflexivity.
Defined.

Section ZeroBatch.

Lemma rolling_durations_lookup_batch (toks : list TimePoint) :
  forall prev (bs : list size_t) (i : nat) b,
  bs !! i = Some b -> (i < length toks)%nat ->
  exists x, rolling_durations prev toks bs !! i = Some (div x (float_of_size_t b)).
Proof.
  induction toks as [|t toks IH]; intros prev bs i b Hb Hi; [simpl in Hi; lia|].
  destruct bs as [|b0 bs]; [discriminate|].
  destruct i as [|i].
  - injection Hb as ->. eexists. reflexivity.
  - cbn [rolling_durations]. cbn in Hb, Hi |- *. apply IH; [exact Hb|lia].
Qed.

Lemma div_by_zero_not_finite (x : float32) : not_finite (div x (float_of_size_t 0)).
Proof.
  change (float_of_size_t 0) with (S754_zero false).
  destruct x as [s|s| |s m e]; cbn; unfold not_finite; eauto.
Qed.

End ZeroBatch.

(** X8. A batch size of zero is divided by all the same: after a call with a
    start time that returns, the duration at an index whose batch size is 0
    is an infinity or a NaN, never a finite number. *)
Theorem evaluate_statistics_zero_batch
    (start_time : TimePoint) (this this' : PerfMetrics) (i : nat) :
  evaluate_statistics (Some start_time) this = Ok this' ->
  m_batch_sizes (raw_metrics this) !! i = Some 0 ->
  (i < length (m_new_token_times (raw_metrics this)))%nat ->
  exists d, m_durations (raw_metrics this') !! i = Some d /\ not_finite d.
Proof.
  intros H Hb Hi. apply evaluate_statistics_Ok_inv in H as (mid & -> & Hmid).
  apply recalculate_durations_Ok_inv in Hmid as (tok_0 & rest & Htok & Hle & ->).
  rewrite refresh_statistics_raw. unfold recalculated.
  cbn [raw_metrics m_durations update_raw with_raw_metrics raw_with_m_durations
       with_num_generated_tokens].
  destruct (rolling_durations_lookup_batch (m_new_token_times (raw_metrics this))
              start_time _ i 0 Hb Hi) as [x Hx].
  exists (div x (float_of_size_t 0)). split; [exact Hx|apply div_by_zero_not_finite].
Qed.

Lemma evaluate_statistics_zero_batch_witness :
  exists this' d,
    evaluate_statistics (Some 0) request_zero_batch = Ok this' /\
    m_durations (raw_metrics this') !! 1%nat = Some d /\ not_finite d.
Proof.
  assert (H : evaluate_statistics (Some 0) request_zero_batch
              = Ok (refresh_statistics (recalculated 0 900000 request_zero_batch)))
    by (vm_compute; reflexivity).
  destruct (evaluate_statistics_zero_batch 0 request_zero_batch _ 1 H eq_refl)
    as (d & Hd & Hnf); [cbn; lia|].
  eexists _, d. split; [exact H|]. split; [exact Hd|exact Hnf].
Defined.

(** ** [operator+]: what it reads, what it keeps, how it composes *)

Section MergeMore.

Lemma batch_total_app (l1 l2 : list size_t) :
  batch_total (l1 ++ l2) = batch_total l1 + batch_total l2.
Proof.
  unfold batch_total. induction l1 as [|b l1 IH]; cbn [foldr app]; [lia|].
  rewrite IH. lia.
Qed.

Lemma wrap_size_t_add (x y : Z) :
  size_t_add (wrap_size_t x) (wrap_size_t y) = wrap_size_t (x + y).
Proof.
  unfold size_t_add, wrap_size_t. symmetry. apply Z.add_mod.
  unfold SIZE_MODULUS. lia.
Qed.

(** Batch sizes past the last token time are not read. *)
Lemma rolling_durations_app_r (toks : list TimePoint) :
  forall prev (bs extra : list size_t),
  (length toks <= length bs)%nat ->
  rolling_durations prev toks (bs ++ extra) = rolling_durations prev toks bs.
Proof.
  induction toks as [|t toks IH]; intros prev bs extra Hle; [reflexivity|].
  destruct bs as [|b bs]; [simpl in Hle; lia|].
  cbn [rolling_durations app]. f_equal. apply IH. simpl in Hle. lia.
Qed.

Lemma concatenated_same_measurements a a' b b' :
  same_measurements a a' -> same_measurements b b' ->
  refresh_statistics (concatenated a b) = refresh_statistics (concatenated a' b').
Proof.
  unfold same_measurements. intros (Hl & Hg & Hi & Hr) (Hl' & Hg' & Hi' & Hr').
  rewrite !refresh_statistics_unfold. unfold concatenated.
  cbn [load_time num_generated_tokens num_input_tokens raw_metrics
       generate_durations tokenization_durations detokenization_durations
       m_times_to_first_token m_new_token_times m_batch_sizes m_durations].
  now rewrite Hl, Hg, Hi', Hg', Hr, Hr'.
Qed.

Lemma eqb_nan_l (x : float32) : eqb S754_nan x = false.
Proof. reflexivity. Qed.

Lemma eqb_nan_r (x : float32) : eqb x S754_nan = false.
Proof. destruct x as [s|s| |s m e]; try destruct s; reflexivity. Qed.

End MergeMore.

(** X9. The merge reads no derived statistic of either operand: operands
    that agree on load time, counters and raw sequences give the same
    outcome.  And the statistics of a merge are up to date: a further
    [evaluate_statistics] without a start time changes nothing. *)
Theorem merge_ignores_stale_statistics (a a' b b' : PerfMetrics) :
  same_measurements a a' -> same_measurements b b' ->
  operator_plus a b = operator_plus a' b' /\
  (forall res, operator_plus a b = Ok res -> evaluate_statistics None res = Ok res).
Proof.
  intros Ha Hb. split.
  - rewrite !operator_plus_unfold.
    pose proof Ha as (Hl & _). pose proof Hb as (Hl' & _).
    rewrite <- Hl, <- Hl'.
    destruct (eqb (load_time b) (load_time a)); [|reflexivity].
    f_equal. now apply concatenated_same_measurements.
  - intros res H. apply operator_plus_Ok_inv in H as [_ ->].
    rewrite evaluate_statistics_None. now rewrite refresh_statistics_idempotent.
Qed.

Lemma merge_ignores_stale_statistics_witness :
  operator_plus request_a request_b
  = operator_plus (with_tpot {| mean := of_Z 1; std := of_Z 2 |} request_a)
                  (with_ttft {| mean := of_Z 3; std := of_Z 4 |} request_b).
Proof.
  apply (merge_ignores_stale_statistics request_a _ request_b _);
    unfold same_measurements; repeat split.
Defined.

(** X10. The agreement of [num_generated_tokens] with the sum of the batch
    sizes is established by [evaluate_statistics] with a start time when
    every batch size has a token time, and kept by [evaluate_statistics]
    without one and by the merge. *)
Theorem tokens_consistent_kept :
  (forall start_time this this',
     length (m_batch_sizes (raw_metrics this))
       = length (m_new_token_times (raw_metrics this)) ->
     evaluate_statistics (Some start_time) this = Ok this' ->
     tokens_consistent this') /\
  (forall this this',
     tokens_consistent this -> evaluate_statistics None this = Ok this' ->
     tokens_consistent this') /\
  (forall a b res,
     tokens_consistent a -> tokens_consistent b -> operator_plus a b = Ok res ->
     tokens_consistent res).
Proof.
  unfold tokens_consistent. split; [|split].
  - intros sv this this' Hlen H.
    apply evaluate_statistics_Ok_inv in H as (mid & -> & Hmid).
    apply recalculate_durations_Ok_inv in Hmid as (tok_0 & rest & Htok & Hle & ->).
    destruct this as [? ? ? ? ? ? ? ? ? []].
    cbn [raw_metrics m_new_token_times m_batch_sizes] in *. subst.
    unfold recalculated.
    cbn [refresh_statistics with_throughput with_detokenization_duration
         with_tokenization_duration with_generate_duration with_ttft with_tpot
         with_num_generated_tokens update_raw with_raw_metrics num_generated_tokens
         raw_metrics m_batch_sizes m_new_token_times raw_with_m_durations
         raw_with_m_times_to_first_token].
    now rewrite take_ge by lia.
  - intros this this' Hc H. injection H as <-. exact Hc.
  - intros a b res Ha Hb H. apply operator_plus_Ok_inv in H as [_ ->].
    cbn [refresh_statistics with_throughput with_detokenization_duration
         with_tokenization_duration with_generate_duration with_ttft with_tpot
         concatenated num_generated_tokens raw_metrics m_batch_sizes].
    rewrite Ha, Hb, batch_total_app. apply wrap_size_t_add.
Qed.

Lemma tokens_consistent_kept_witness :
  exists res, operator_plus request_a request_b = Ok res /\ tokens_consistent res.
Proof.
  eexists. split; [vm_compute; reflexivity|].
  apply (proj2 (proj2 tokens_consistent_kept) request_a request_b);
    [reflexivity | reflexivity | vm_compute; reflexivity].
Defined.

(** X11. Recomputing from a start time after a merge forgets the right
    operand: when the left operand has a batch size for each of its token
    times, [evaluate_statistics] with a start time on [a + b] returns the
    durations, first-token time, generated-token count and the statistics
    over them that the same call returns on [a] alone. *)
Theorem evaluate_after_merge_forgets_right
    (start_time : TimePoint) (a b res : PerfMetrics) :
  operator_plus a b = Ok res ->
  (1 <= length (m_new_token_times (raw_metrics a)))%nat ->
  length (m_batch_sizes (raw_metrics a)) = length (m_new_token_times (raw_metrics a)) ->
  exists res_a res',
    evaluate_statistics (Some start_time) a = Ok res_a /\
    evaluate_statistics (Some start_time) res = Ok res' /\
    m_durations (raw_metrics res') = m_durations (raw_metrics res_a) /\
    m_times_to_first_token (raw_metrics res')
      = m_times_to_first_token (raw_metrics res_a) /\
    num_generated_tokens res' = num_generated_tokens res_a /\
    tpot res' = tpot res_a /\ ttft res' = ttft res_a /\
    throughput res' = throughput res_a.
Proof.
  intros H Hn Hlen. apply operator_plus_Ok_inv in H as [_ ->].
  destruct a as [lt a1 a2 a3 a4 a5 a6 ngt nit [g tk dtk ttf toks bs durs]].
  cbn [raw_metrics m_new_token_times m_batch_sizes] in Hn, Hlen.
  destruct toks as [|tok_0 rest]; [simpl in Hn; lia|].
  eexists _, _. split; [|split].
  - apply (evaluate_statistics_Some start_time _ tok_0 rest); [reflexivity|].
    cbn [raw_metrics m_batch_sizes]. lia.
  - apply (evaluate_statistics_Some start_time _ tok_0 rest); [reflexivity|].
    cbn [raw_metrics m_batch_sizes refresh_statistics with_throughput
         with_detokenization_duration with_tokenization_duration
         with_generate_duration with_ttft with_tpot concatenated].
    rewrite length_app. lia.
  - rewrite !refresh_statistics_unfold. unfold recalculated.
    cbn [raw_metrics m_durations m_times_to_first_token m_new_token_times
         m_batch_sizes update_raw with_raw_metrics raw_with_m_durations
         raw_with_m_times_to_first_token with_num_generated_tokens
         num_generated_tokens tpot ttft throughput concatenated].
    rewrite rolling_durations_app_r by lia.
    rewrite take_app_le by lia.
    repeat split.
Qed.

Lemma evaluate_after_merge_forgets_right_witness :
  exists res res_a res',
    operator_plus request_a request_b = Ok res /\
    evaluate_statistics (Some 0) request_a = Ok res_a /\
    evaluate_statistics (Some 0) res = Ok res' /\
    m_durations (raw_metrics res) = [of_Z 300; of_Z 500; of_Z 2000] /\
    m_durations (raw_metrics res') = m_durations (raw_metrics res_a) /\
    num_generated_tokens res = 6 /\
    num_generated_tokens res' = num_generated_tokens res_a.
Proof.
  assert (H : operator_plus request_a request_b
              = Ok (refresh_statistics (concatenated request_a request_b)))
    by (apply operator_plus_Ok; vm_compute; reflexivity).
  destruct (evaluate_after_merge_forgets_right 0 request_a request_b _ H)
    as (res_a & res' & H1 & H2 & Hd & _ & Hn & _); [cbn; lia|reflexivity|].
  eexists _, res_a, res'. split; [exact H|]. split; [exact H1|]. split; [exact H2|].
  split; [vm_compute; reflexivity|]. split; [exact Hd|].
  split; [vm_compute; reflexivity|exact Hn].
Defined.

(** X12. A load time that is not a number compares equal to nothing, itself
    included: an object with such a load time cannot be merged with any
    object, on either side, nor with itself. *)
Theorem merge_with_nan_load_time_fails (a b : PerfMetrics) :
  load_time a = S754_nan ->
  operator_plus a b = Err (AssertionFailed load_time_message) /\
  operator_plus b a = Err (AssertionFailed load_time_message) /\
  operator_plus a a = Err (AssertionFailed load_time_message).
Proof.
  intros Hnan. rewrite !operator_plus_unfold, Hnan.
  now rewrite eqb_nan_l, !eqb_nan_r.
Qed.

Lemma merge_with_nan_load_time_fails_witness :
  operator_plus request_nan request_nan = Err (AssertionFailed load_time_message).
Proof.
  exact (proj2 (proj2 (merge_with_nan_load_time_fails request_nan request_a eq_refl))).
Defined.

(** X13. Accumulating any number of objects of the accumulator's load time
    with [+=] never fails; the result keeps the accumulator's load time and
    token times, its durations, first-token times and batch sizes are the
    accumulator's followed by those of the objects in order, its
    generated-token counter is the running 64-bit sum, and, when at least
    one object was added, its [tpot] is the reduction of all the durations. *)
Theorem accumulate_concatenates (rights : list PerfMetrics) :
  forall this : PerfMetrics,
  Forall (fun r => eqb (load_time this) (load_time r) = true) rights ->
  exists res,
    accumulate this rights = Ok res /\
    load_time res = load_time this /\
    m_new_token_times (raw_metrics res) = m_new_token_times (raw_metrics this) /\
    m_durations (raw_metrics res)
      = m_durations (raw_metrics this)
          ++ concat (map (fun r => m_durations (raw_metrics r)) rights) /\
    m_times_to_first_token (raw_metrics res)
      = m_times_to_first_token (raw_metrics this)
          ++ concat (map (fun r => m_times_to_first_token (raw_metrics r)) rights) /\
    m_batch_sizes (raw_metrics res)
      = m_batch_sizes (raw_metrics this)
          ++ concat (map (fun r => m_batch_sizes (raw_metrics r)) rights) /\
    num_generated_tokens res
      = fold_left size_t_add (map num_generated_tokens rights)
                  (num_generated_tokens this) /\
    (rights <> [] -> tpot res = calc_mean_and_std (m_durations (raw_metrics res))).
Proof.
  induction rights as [|r rights IH]; intros this Hall.
  - exists this. cbn [accumulate map concat fold_left]. rewrite !app_nil_r.
    repeat split. congruence.
  - inversion Hall as [|? ? Hr Hrest]; subst.
    cbn [accumulate]. unfold operator_plus_assign.
    rewrite (operator_plus_Ok this r) by (now rewrite eqb_sym).
    cbn [mbind result_bind].
    destruct (IH (refresh_statistics (concatenated this r))) as
      (res & Hacc & Hlt & Htok & Hd & Httft & Hbs & Hn & Htpot).
    { exact Hrest. }
    exists res. split; [exact Hacc|]. split; [exact Hlt|]. split; [exact Htok|].
    cbn [map concat]. rewrite !app_assoc.
    split; [exact Hd|]. split; [exact Httft|]. split; [exact Hbs|].
    split; [exact Hn|]. intros _.
    destruct rights as [|r' rights]; [|apply Htpot; discriminate].
    injection Hacc as <-. reflexivity.
Qed.

Lemma accumulate_concatenates_witness :
  exists res,
    accumulate request_a [request_b; request_c] = Ok res /\
    m_durations (raw_metrics res)
      = [of_Z 300; of_Z 500; of_Z 2000; of_Z 700; of_Z 1100] /\
    num_generated_tokens res = 8.
Proof.
  destruct (accumulate_concatenates [request_b; request_c] request_a)
    as (res & H & _ & _ & Hd & _ & _ & Hn & _).
  - repeat constructor.
  - exists res. split; [exact H|]. split; [exact Hd|exact Hn].
Defined.

(** X14. Swapping the operands of a merge that returns gives a merge that
    returns with the same samples in another order and the same
    generated-token counter; the token times are those of whichever operand
    stands on the left. *)
Theorem merge_swapped_operands (a b ab : PerfMetrics) :
  operator_plus a b = Ok ab ->
  exists ba,
    operator_plus b a = Ok ba /\
    m_durations (raw_metrics ab) ≡ₚ m_durations (raw_metrics ba) /\
    m_times_to_first_token (raw_metrics ab)
      ≡ₚ m_times_to_first_token (raw_metrics ba) /\
    m_batch_sizes (raw_metrics ab) ≡ₚ m_batch_sizes (raw_metrics ba) /\
    tokenization_durations (raw_metrics ab)
      ≡ₚ tokenization_durations (raw_metrics ba) /\
    detokenization_durations (raw_metrics ab)
      ≡ₚ detokenization_durations (raw_metrics ba) /\
    generate_durations (raw_metrics ab) ≡ₚ generate_durations (raw_metrics ba) /\
    num_generated_tokens ab = num_generated_tokens ba /\
    m_new_token_times (raw_metrics ab) = m_new_token_times (raw_metrics a) /\
    m_new_token_times (raw_metrics ba) = m_new_token_times (raw_metrics b).
Proof.
  intros H. apply operator_plus_Ok_inv in H as [Heq ->].
  exists (refresh_statistics (concatenated b a)).
  split; [apply operator_plus_Ok; now rewrite eqb_sym|].
  rewrite !refresh_statistics_unfold. unfold concatenated.
  cbn [raw_metrics num_generated_tokens m_durations m_times_to_first_token
       m_batch_sizes tokenization_durations detokenization_durations
       generate_durations m_new_token_times].
  repeat (split; [apply Permutation_app_comm|]).
  split; [|split; reflexivity].
  unfold size_t_add. f_equal. lia.
Qed.

Lemma merge_swapped_operands_witness :
  exists ab ba,
    operator_plus request_a request_b = Ok ab /\
    operator_plus request_b request_a = Ok ba /\
    m_durations (raw_metrics ab) = [of_Z 300; of_Z 500; of_Z 2000] /\
    m_durations (raw_metrics ba) = [of_Z 2000; of_Z 300; of_Z 500] /\
    num_generated_tokens ab = num_generated_tokens ba.
Proof.
  assert (H : operator_plus request_a request_b
              = Ok (refresh_statistics (concatenated request_a request_b)))
    by (apply operator_plus_Ok; vm_compute; reflexivity).
  destruct (merge_swapped_operands request_a request_b _ H)
    as (ba & Hba & _ & _ & _ & _ & _ & _ & Hn & _).
  eexists _, ba. split; [exact H|]. split; [exact Hba|].
  split; [vm_compute; reflexivity|]. split; [|exact Hn].
  vm_compute in Hba. injection Hba as <-. vm_compute. reflexivity.
Defined.

(** X15. [a += a] is safe: the right operand is read through its reference
    while the result is built in a local copy, so the object ends up with
    each concatenated sequence twice over, twice its generated-token count
    (modulo 2^64) and its own token times, and no other object of the store
    changes. *)
Theorem self_assignment_doubles
    (h : gmap nat PerfMetrics) (this : nat) (a : PerfMetrics) :
  h !! this = Some a ->
  eqb (load_time a) (load_time a) = true ->
  exists res,
    Obj.operator_plus_assign this this h = Ok (tt, <[this:=res]> h) /\
    m_durations (raw_metrics res)
      = m_durations (raw_metrics a) ++ m_durations (raw_metrics a) /\
    m_times_to_first_token (raw_metrics res)
      = m_times_to_first_token (raw_metrics a)
          ++ m_times_to_first_token (raw_metrics a) /\
    m_batch_sizes (raw_metrics res)
      = m_batch_sizes (raw_metrics a) ++ m_batch_sizes (raw_metrics a) /\
    m_new_token_times (raw_metrics res) = m_new_token_times (raw_metrics a) /\
    num_generated_tokens res
      = wrap_size_t (2 * num_generated_tokens a) /\
    tpot res
      = calc_mean_and_std (m_durations (raw_metrics a) ++ m_durations (raw_metrics a)).
Proof.
  intros Ha Heq.
  exists (refresh_statistics (concatenated a a)). split.
  - rewrite (operator_plus_assign_run this this h a a Ha Ha).
    unfold operator_plus_assign. now rewrite (operator_plus_Ok a a Heq).
  - rewrite refresh_statistics_unfold. unfold concatenated.
    cbn [raw_metrics m_durations m_times_to_first_token m_batch_sizes
         m_new_token_times num_generated_tokens tpot].
    repeat split. unfold size_t_add. f_equal. lia.
Qed.

Lemma self_assignment_doubles_witness :
  exists res,
    Obj.operator_plus_assign 0%nat 0%nat two_requests
      = Ok (tt, <[0%nat:=res]> two_requests) /\
    m_durations (raw_metrics res) = [of_Z 300; of_Z 500; of_Z 300; of_Z 500] /\
    num_generated_tokens res = 10.
Proof.
  destruct (self_assignment_doubles two_requests 0%nat request_a)
    as (res & H & Hd & _ & _ & _ & Hn & _);
    [reflexivity | vm_compute; reflexivity |].
  exists res. split; [exact H|]. split; [exact Hd|exact Hn].
Defined.

(** ** [get_microsec] *)

Section GetMicrosec.

Lemma quot_thousand (q r : Z) :
  0 <= q -> 0 <= r < 1000 -> Z.quot (1000 * q + r) 1000 = q.
Proof.
  intros Hq Hr. rewrite Z.quot_div_nonneg by lia.
  symmetry. apply (Z.div_unique _ _ q r); lia.
Qed.

End GetMicrosec.

(** X16. [get_microsec] drops the part of a duration below a microsecond and
    rounds toward zero for either sign: a duration of [q] microseconds and
    [r < 1000] nanoseconds reads as the float of [q], its negation as the
    float of [-q]; a duration shorter than a microsecond reads as [+0]. *)
Theorem get_microsec_truncates_toward_zero (q r : Z) :
  0 <= q -> 0 <= r < 1000 ->
  get_microsec (1000 * q + r) = of_Z q /\
  get_microsec (- (1000 * q + r)) = of_Z (- q) /\
  (q = 0 -> get_microsec (1000 * q + r) = zero /\
            get_microsec (- (1000 * q + r)) = zero).
Proof.
  intros Hq Hr. unfold get_microsec.
  rewrite Z.quot_opp_l by lia. rewrite quot_thousand by assumption.
  split; [reflexivity|]. split; [reflexivity|].
  intros ->. split; reflexivity.
Qed.

Lemma get_microsec_truncates_toward_zero_witness :
  get_microsec 2999 = of_Z 2 /\ get_microsec (-2999) = of_Z (-2) /\
  get_microsec 999 = zero /\ get_microsec (-999) = zero.
Proof.
  destruct (get_microsec_truncates_toward_zero 2 999) as (H1 & H2 & _); [lia|lia|].
  destruct (get_microsec_truncates_toward_zero 0 999) as (_ & _ & H3); [lia|lia|].
  destruct (H3 eq_refl) as [H4 H5].
  split; [exact H1|]. split; [exact H2|]. split; [exact H4|exact H5].
Defined.

(** ** Durations of a clock that does not go back *)

Section SignClear.

Lemma sign_clear_nan_or_nonneg (x : float32) : sign_clear x -> nan_or_nonneg x.
Proof. apply nan_or_nonneg_of_sign. Qed.

Lemma sign_clear_of_Z (z : Z) : 0 <= z -> sign_clear (of_Z z).
Proof.
  intros Hz. unfold of_Z, binary_normalize.
  destruct z as [|p|p]; [reflexivity| |lia]. apply binary_round_sign.
Qed.

Lemma sign_clear_div (x y : float32) :
  sign_clear x -> sign_clear y -> sign_clear (div x y).
Proof.
  destruct x as [sx|sx| |sx mx ex], y as [sy|sy| |sy my ey]; cbn;
    try (intros -> ->; reflexivity); try (intros; exact I);
    try (intros ->; reflexivity).
  intros -> ->. unfold div, SFdiv.
  destruct (SFdiv_core_binary prec emax (Z.pos mx) ex (Z.pos my) ey) as [[mz ez] lz].
  apply (binary_round_aux_sign false mz ez lz).
Qed.

Lemma sign_clear_add (x y : float32) :
  sign_clear x -> sign_clear y -> sign_clear (add x y).
Proof.
  destruct x as [sx|sx| |sx mx ex], y as [sy|sy| |sy my ey]; cbn;
    try (intros -> ->; reflexivity); try (intros; exact I);
    try (intros ->; reflexivity).
  intros -> ->. unfold add, SFadd. cbn [cond_Zopp].
  match goal with
  | |- sign_clear (binary_normalize _ _ ?m _ _) =>
      destruct m as [|p|p] eqn:E; [reflexivity|apply binary_round_sign|lia]
  end.
Qed.

Lemma sign_clear_fold (f : float32 -> MicroSeconds -> float32) :
  (forall acc d, sign_clear acc -> sign_clear d -> sign_clear (f acc d)) ->
  forall durations acc,
  Forall sign_clear durations -> sign_clear acc ->
  sign_clear (fold_left f durations acc).
Proof.
  intros Hf durations. induction durations as [|d ds IH]; intros acc Hall Hacc;
    [exact Hacc|].
  cbn [fold_left]. inversion Hall; subst. apply IH; [assumption|]. now apply Hf.
Qed.

Lemma sign_clear_mean (durations : list MicroSeconds) :
  Forall sign_clear durations -> sign_clear (mean (calc_mean_and_std durations)).
Proof.
  intros Hall. unfold calc_mean_and_std. cbn [mean].
  apply sign_clear_div; [|apply sign_clear_of_Z; lia].
  apply sign_clear_fold; [|exact Hall|reflexivity].
  intros acc d Hacc Hd. apply sign_clear_add; [exact Hacc|].
  apply sign_clear_div; [exact Hd|reflexivity].
Qed.

Lemma wrap_int64_small (z : Z) : - 2 ^ 63 <= z < 2 ^ 63 -> wrap_int64 z = z.
Proof. intros Hz. unfold wrap_int64. rewrite Z.mod_small by lia. lia. Qed.

Lemma sign_clear_rolling_durations (toks : list TimePoint) :
  forall prev (bs : list size_t),
  clock_reading prev -> Forall clock_reading toks -> non_decreasing prev toks ->
  Forall (fun b => 0 <= b) bs ->
  Forall sign_clear (rolling_durations prev toks bs).
Proof.
  induction toks as [|t toks IH]; intros prev bs Hprev Hall Hmono Hbs;
    [constructor|].
  destruct bs as [|b bs]; [constructor|].
  destruct Hmono as [Hle Hmono].
  inversion Hall; subst. inversion Hbs; subst.
  cbn [rolling_durations]. constructor.
  - apply sign_clear_div; [|now apply sign_clear_of_Z].
    unfold to_MicroSeconds. apply sign_clear_div; [|reflexivity].
    apply sign_clear_of_Z. unfold time_diff.
    unfold clock_reading in *. rewrite wrap_int64_small; lia.
  - now apply IH.
Qed.

End SignClear.

(** X17. When the clock does not go back (the start time and the token times
    are clock readings in non-decreasing order) and no batch size is
    negative, nothing [evaluate_statistics] computes from them is negative:
    every duration, the first-token time, and the means of [tpot], [ttft]
    and [throughput] are [>= 0] or NaN. *)
Theorem evaluate_statistics_never_negative
    (start_time : TimePoint) (this this' : PerfMetrics) :
  evaluate_statistics (Some start_time) this = Ok this' ->
  clock_reading start_time ->
  Forall clock_reading (m_new_token_times (raw_metrics this)) ->
  non_decreasing start_time (m_new_token_times (raw_metrics this)) ->
  Forall (fun b => 0 <= b) (m_batch_sizes (raw_metrics this)) ->
  Forall nan_or_nonneg (m_durations (raw_metrics this')) /\
  Forall nan_or_nonneg (m_times_to_first_token (raw_metrics this')) /\
  nan_or_nonneg (mean (tpot this')) /\
  nan_or_nonneg (mean (ttft this')) /\
  nan_or_nonneg (mean (throughput this')).
Proof.
  intros H Hstart Hall Hmono Hbs.
  apply evaluate_statistics_Ok_inv in H as (mid & -> & Hmid).
  apply recalculate_durations_Ok_inv in Hmid as (tok_0 & rest & Htok & Hle & ->).
  pose proof (sign_clear_rolling_durations _ start_time _ Hstart Hall Hmono Hbs) as Hd.
  assert (Ht : Forall sign_clear [to_MicroSeconds (time_diff tok_0 start_time)]).
  { constructor; [|constructor]. rewrite Htok in Hall, Hmono.
    inversion Hall; subst. destruct Hmono as [Hle0 _].
    unfold to_MicroSeconds. apply sign_clear_div; [|reflexivity].
    apply sign_clear_of_Z. unfold time_diff, clock_reading in *.
    rewrite wrap_int64_small; lia. }
  rewrite refresh_statistics_unfold. unfold recalculated.
  cbn [raw_metrics m_durations m_times_to_first_token update_raw with_raw_metrics
       raw_with_m_durations raw_with_m_times_to_first_token
       with_num_generated_tokens tpot ttft throughput throughput_of mean].
  split; [eapply Forall_impl; [exact Hd|apply sign_clear_nan_or_nonneg]|].
  split; [eapply Forall_impl; [exact Ht|apply sign_clear_nan_or_nonneg]|].
  split; [apply sign_clear_nan_or_nonneg, sign_clear_mean, Hd|].
  split; [apply sign_clear_nan_or_nonneg, sign_clear_mean, Ht|].
  apply sign_clear_nan_or_nonneg, sign_clear_div; [reflexivity|].
  apply sign_clear_mean, Hd.
Qed.

Lemma evaluate_statistics_never_negative_witness :
  exists this',
    evaluate_statistics (Some 0) request_a = Ok this' /\
    Forall nan_or_nonneg (m_durations (raw_metrics this')) /\
    nan_or_nonneg (mean (tpot this')) /\
    nan_or_nonneg (mean (throughput this')).
Proof.
  assert (H : evaluate_statistics (Some 0) request_a
              = Ok (refresh_statistics (recalculated 0 900000 request_a)))
    by (vm_compute; reflexivity).
  destruct (evaluate_statistics_never_negative 0 request_a _ H)
    as (Hd & _ & Hm & _ & Ht).
  - unfold clock_reading. lia.
  - repeat constructor; unfold clock_reading; lia.
  - cbn. lia.
  - repeat constructor; lia.
  - eexists. split; [exact H|]. split; [exact Hd|]. split; [exact Hm|exact Ht].
Defined.
